(** * Fashion retail dashboard ([app.py]): segment metrics and PCA projection

    A shallow embedding of the Streamlit script [app.py].  Calls into pandas
    and scikit-learn are embedded by what the called routine computes on the
    typed tables that the script hands to it.  The numeric lines have two
    readings.  In the first, numeric columns hold exact real numbers: it
    carries the run of the whole script and the algebraic properties of the
    projection, which the program has up to rounding.  In the second (module
    [B64]) they hold binary64 numbers, and every operation rounds, overflows
    and hands on NaN as the libraries do: it settles what the segment means
    and the standardization return, and when the projection raises. *)

From Stdlib Require Import String Ascii Reals Lra Lia ZArith Bool Arith List.
From Stdlib Require Import Permutation Sorted.
From Stdlib Require Floats Uint63.
Import ListNotations.

Local Open Scope R_scope.

(** ** Data model *)

(** One row of [rfm_with_clusters.csv] with its four cells present: the
    three features as the real numbers that the cells denote, the label an
    integer.  The same row with [float64] cells is [B64.Customer]. *)
Record Customer := mkCustomer {
  Recency : R;
  Frequency : R;
  Monetary : R;
  Cluster : Z
}.

(** One row of [clothing_retail_300.csv]; only the columns the script reads.
    The text columns hold the cells that [pd.read_csv] keeps as text
    ([reads_as_text] below); a cell it reads as missing is not a string. *)
Record Txn := mkTxn {
  Country : string;
  Season : string;
  Category : string;
  Size : string;
  Gender : string;
  LineTotal : R
}.

(** A float cell as the script can observe it: a finite value or NaN. *)
Inductive num := Fin (x : R) | NaN.

(** A pandas [Series]: index labels paired with values, in row order. *)
Definition Series (A : Type) := list (nat * A).

(** A pandas [DataFrame] with typed rows: index labels paired with rows. *)
Definition Frame (A : Type) := list (nat * A).

Definition index {A} (f : Frame A) : list nat := map fst f.
Definition values {A} (s : Series A) : list A := map snd s.

(** [pd.read_csv(path)] on parsed rows, and [pd.DataFrame(array)]: the result
    carries a fresh [RangeIndex] 0, 1, ..., n-1. *)
Definition RangeIndex {A} (rows : list A) : Frame A :=
  combine (seq 0 (length rows)) rows.

(** [frame[col]]: one column as a [Series] over the same index. *)
Definition getcol {A B} (col : A -> B) (f : Frame A) : Series B :=
  map (fun ir => (fst ir, col (snd ir))) f.

(** Label lookup in a [Series] (first match). *)
Fixpoint loc {A} (s : Series A) (i : nat) : option A :=
  match s with
  | [] => None
  | (j, x) :: s' => if Nat.eqb i j then Some x else loc s' i
  end.

(** [series == value], where [value] is what a [selectbox] returned
    ([None] when it had no options: no cell equals [None]). *)
Definition eq_mask {A} (eqb : A -> A -> bool) (s : Series A) (v : option A)
  : Series bool :=
  map (fun ix => (fst ix, match v with
                          | Some c => eqb (snd ix) c
                          | None => false
                          end)) s.

(** [a & b] on two boolean [Series] over the same index. *)
Definition and_mask (a b : Series bool) : Series bool :=
  map (fun ix => (fst ix, match loc b (fst ix) with
                          | Some y => andb (snd ix) y
                          | None => false
                          end)) a.

(** [frame[mask]]: boolean indexing keeps the rows whose label the mask maps
    to [True]; kept rows keep their index label. *)
Definition getitem_mask {A} (f : Frame A) (mask : Series bool) : Frame A :=
  filter (fun ir => match loc mask (fst ir) with
                    | Some b => b
                    | None => false
                    end) f.

(** ** Numeric helpers *)

Definition sum (xs : list R) : R := fold_right Rplus 0 xs.

Definition arith_mean (xs : list R) : R := sum xs / INR (length xs).

(** [Series.mean()] on real cells: the sum over the count; NaN when nothing
    is counted.  What it returns on [float64] cells is
    [B64.Series_mean]. *)
Definition Series_mean (s : Series R) : num :=
  match s with
  | [] => NaN
  | _ :: _ => Fin (sum (values s) / INR (length s))
  end.

(** ** Segment metrics (lines 54-60) *)

Record SegmentStats := mkStats {
  count : nat;
  avgRecency : num;
  avgFrequency : num;
  avgMonetary : num
}.

(** Line 54: [filtered_rfm = rfm[rfm["Cluster"] == selected_cluster]]. *)
Definition filter_rfm (rfm : Frame Customer) (selected_cluster : option Z)
  : Frame Customer :=
  getitem_mask rfm (eq_mask Z.eqb (getcol Cluster rfm) selected_cluster).

(** Lines 54-60 as one function: the rows shown by [st.dataframe] are counted
    and the three [metric] widgets show the column means. *)
Definition summarize (rfm : Frame Customer) (selected_cluster : option Z)
  : SegmentStats :=
  let filtered_rfm := filter_rfm rfm selected_cluster in
  {| count := length filtered_rfm;
     avgRecency := Series_mean (getcol Recency filtered_rfm);
     avgFrequency := Series_mean (getcol Frequency filtered_rfm);
     avgMonetary := Series_mean (getcol Monetary filtered_rfm) |}.

(** The subset of records carrying a label, as the specification words it. *)
Definition with_label (records : list Customer) (c : Z) : list Customer :=
  filter (fun r => Z.eqb (Cluster r) c) records.

(** ** Exceptions *)

(** A call either returns or raises; an exception is named by its class. *)
Inductive result (A : Type) := Ok (a : A) | Raise (exc : string).
Arguments Ok {A} a.
Arguments Raise {A} exc.

Definition bind {A B} (m : result A) (k : A -> result B) : result B :=
  match m with
  | Ok a => k a
  | Raise exc => Raise exc
  end.

Notation "x <- m ;; k" := (bind m (fun x => k))
  (at level 61, m at next level, right associativity).

(** ** Feature matrix (line 65) *)

Inductive feature := FRecency | FFrequency | FMonetary.

Definition vec3 : Type := R * R * R.

Definition vget (j : feature) (v : vec3) : R :=
  match v, j with
  | (a, _, _), FRecency => a
  | (_, b, _), FFrequency => b
  | (_, _, c), FMonetary => c
  end.

Definition feature_of (j : feature) (r : Customer) : R :=
  match j with
  | FRecency => Recency r
  | FFrequency => Frequency r
  | FMonetary => Monetary r
  end.

(** [rfm[["Recency", "Frequency", "Monetary"]]] as the array scikit-learn
    receives: rows in frame order, index labels dropped. *)
Definition to_array (rfm : Frame Customer) : list vec3 :=
  map (fun ir => (Recency (snd ir), Frequency (snd ir), Monetary (snd ir))) rfm.

Definition column (j : feature) (M : list vec3) : list R := map (vget j) M.

(** Sum of squared deviations from the mean. *)
Definition sum_sq_dev (xs : list R) : R :=
  sum (map (fun x => (x - arith_mean xs) * (x - arith_mean xs)) xs).

(** [np.var] with its default [ddof=0]. *)
Definition variance (xs : list R) : R := sum_sq_dev xs / INR (length xs).

(** ** [StandardScaler] (lines 64-65) *)

(** scikit-learn replaces a zero scale by one before dividing. *)
Definition handle_zeros_in_scale (s : R) : R :=
  if Req_dec_T s 0 then 1 else s.

Definition mean_ (M : list vec3) (j : feature) : R := arith_mean (column j M).
Definition var_ (M : list vec3) (j : feature) : R := variance (column j M).
Definition scale_ (M : list vec3) (j : feature) : R :=
  handle_zeros_in_scale (sqrt (var_ M j)).

(** The standardized cell on real numbers; on [float64] cells it is
    [B64.scaled]. *)
Definition scaled (M : list vec3) (j : feature) (v : vec3) : R :=
  (vget j v - mean_ M j) / scale_ M j.

Definition transform (M : list vec3) (v : vec3) : vec3 :=
  (scaled M FRecency v, scaled M FFrequency v, scaled M FMonetary v).

(** [StandardScaler().fit_transform(M)]: input validation rejects an array
    with no rows. *)
Definition StandardScaler_fit_transform (M : list vec3) : result (list vec3) :=
  match M with
  | [] => Raise "ValueError"
  | _ :: _ => Ok (map (transform M) M)
  end.

(** ** [PCA(n_components=2)] (lines 66-67) *)

Definition dot (u v : vec3) : R :=
  vget FRecency u * vget FRecency v + vget FFrequency u * vget FFrequency v
  + vget FMonetary u * vget FMonetary v.

Definition vscale (a : R) (v : vec3) : vec3 :=
  (a * vget FRecency v, a * vget FFrequency v, a * vget FMonetary v).

Definition vadd (u v : vec3) : vec3 :=
  (vget FRecency u + vget FRecency v, vget FFrequency u + vget FFrequency v,
   vget FMonetary u + vget FMonetary v).

Definition vzero : vec3 := (0, 0, 0).

Definition center_row (M : list vec3) (v : vec3) : vec3 :=
  (vget FRecency v - mean_ M FRecency, vget FFrequency v - mean_ M FFrequency,
   vget FMonetary v - mean_ M FMonetary).

(** [M - M.mean(axis=0)]. *)
Definition center (M : list vec3) : list vec3 := map (center_row M) M.

Module PcaDf.
(** A row of [pca_df]; [Cluster] is [None] while the column is absent and on
    rows whose label the assigned series lacks. *)
Record row := mkRow {
  PC1 : R;
  PC2 : R;
  Cluster : option Z
}.
End PcaDf.

(** Line 68: [pd.DataFrame(pca_coords, columns=["PC1", "PC2"])]. *)
Definition DataFrame_PC (pca_coords : list (R * R)) : Frame PcaDf.row :=
  RangeIndex (map (fun c => PcaDf.mkRow (fst c) (snd c) None) pca_coords).

(** Line 69: [pca_df["Cluster"] = series]; pandas aligns the series to the
    frame's index labels. *)
Definition setitem_Cluster (f : Frame PcaDf.row) (s : Series Z)
  : Frame PcaDf.row :=
  map (fun ir => (fst ir, PcaDf.mkRow (PcaDf.PC1 (snd ir)) (PcaDf.PC2 (snd ir))
                                      (loc s (fst ir)))) f.

(** The feature rows of a record sequence, and what [StandardScaler] makes
    of them. *)
Definition feature_rows (records : list Customer) : list vec3 :=
  map (fun r => (Recency r, Frequency r, Monetary r)) records.

Definition standardized (records : list Customer) : list vec3 :=
  map (transform (feature_rows records)) (feature_rows records).

Section Projection.

(** The numerical eigen-solver behind [PCA.fit]: from the centered array to
    the two rows of [components_].  It is a routine of the linear-algebra
    backend, outside the script: a parameter here. *)
Variable solver : list vec3 -> vec3 * vec3.

(** [PCA(n_components=2).fit_transform(M)] on real cells: [n_components]
    must not exceed [min(n_samples, n_features)]; the result is the centered
    data expressed on the two components.  The check that rejects a NaN or
    an infinite cell has nothing to reject here; it is in
    [B64.PCA_fit_transform]. *)
Definition PCA_fit_transform (M : list vec3) : result (list (R * R)) :=
  if (2 <=? Nat.min (length M) 3)%nat then
    let Mc := center M in
    let w := solver Mc in
    Ok (map (fun x => (dot x (fst w), dot x (snd w))) Mc)
  else Raise "ValueError".

(** The point that the projection of a table gives for one of its records:
    the record's standardized, centered features on the two components, with
    the record's own label. *)
Definition point_of (records : list Customer) (r : Customer) : PcaDf.row :=
  let w := solver (center (standardized records)) in
  let x := center_row (standardized records)
             (transform (feature_rows records)
                        (Recency r, Frequency r, Monetary r)) in
  PcaDf.mkRow (dot x (fst w)) (dot x (snd w)) (Some (Cluster r)).

(** Lines 64-69 as one function. *)
Definition project (rfm : Frame Customer) : result (Frame PcaDf.row) :=
  X <- StandardScaler_fit_transform (to_array rfm) ;;
  pca_coords <- PCA_fit_transform X ;;
  Ok (setitem_Cluster (DataFrame_PC pca_coords) (getcol Cluster rfm)).

End Projection.

(** ** pandas helpers used by the breakdown charts *)

(** [Series.unique()]: distinct values in order of first appearance. *)
Fixpoint unique {A} (eqb : A -> A -> bool) (xs : list A) : list A :=
  match xs with
  | [] => []
  | x :: xs' => x :: filter (fun y => negb (eqb x y)) (unique eqb xs')
  end.

Fixpoint insert_sorted {A} (leb : A -> A -> bool) (x : A) (l : list A)
  : list A :=
  match l with
  | [] => [x]
  | y :: l' => if leb x y then x :: l else y :: insert_sorted leb x l'
  end.

(** [sorted(xs)] (stable). *)
Definition sorted {A} (leb : A -> A -> bool) (xs : list A) : list A :=
  fold_right (insert_sorted leb) [] xs.

(** [st.selectbox(label, options)]: the option at the position the user
    chose; [None] when there is nothing to choose from. *)
Definition selectbox {A} (options : list A) (choice : nat) : option A :=
  nth_error options choice.

(** [Series.value_counts()] on a column of text cells: occurrences per
    distinct value, most frequent first (values with equal counts stay in
    order of first appearance).  pandas leaves missing cells out of the
    counts; a column of strings has none. *)
Definition value_counts (xs : list string) : list (string * nat) :=
  sorted (fun a b => (snd b <=? snd a)%nat)
         (map (fun x => (x, length (filter (String.eqb x) xs)))
              (unique String.eqb xs)).

Fixpoint lookup {A} (k : string) (s : list (string * A)) : option A :=
  match s with
  | [] => None
  | (k', v) :: s' => if String.eqb k k' then Some v else lookup k s'
  end.

(** [series.reindex(labels)]: one entry per requested label, missing where
    the series has none. *)
Definition reindex {A} (s : list (string * A)) (labels : list string)
  : list (string * option A) :=
  map (fun k => (k, lookup k s)) labels.

(** [frame.groupby(key)[val].sum()]: one sum per distinct key, keys sorted. *)
Definition groupby_sum {A} (key : A -> string) (val : A -> R) (rows : list A)
  : list (string * R) :=
  map (fun k =>
         (k, sum (map val (filter (fun r => String.eqb (key r) k) rows))))
      (sorted String.leb (unique String.eqb (map key rows))).

(** ** Text clean-up of the rules table (lines 101-102) *)

(** [str.replace(pat, repl)] for a non-empty [pat]: every occurrence, found
    left to right; [skip] counts the characters of a match still to drop. *)
Fixpoint str_replace_from (pat repl : string) (skip : nat) (s : string)
  : string :=
  match s with
  | EmptyString => EmptyString
  | String c s' =>
      match skip with
      | S k => str_replace_from pat repl k s'
      | O =>
          if String.prefix pat s
          then append repl
                 (str_replace_from pat repl (String.length pat - 1) s')
          else String c (str_replace_from pat repl 0 s')
      end
  end.

Definition str_replace (pat repl s : string) : string :=
  str_replace_from pat repl 0 s.

Fixpoint mem_char (c : ascii) (chars : string) : bool :=
  match chars with
  | EmptyString => false
  | String d chars' => if Ascii.eqb c d then true else mem_char c chars'
  end.

Fixpoint lstrip (chars s : string) : string :=
  match s with
  | EmptyString => EmptyString
  | String c s' => if mem_char c chars then lstrip chars s' else s
  end.

Fixpoint rstrip (chars s : string) : string :=
  match s with
  | EmptyString => EmptyString
  | String c s' =>
      match rstrip chars s' with
      | EmptyString =>
          if mem_char c chars then EmptyString else String c EmptyString
      | t => String c t
      end
  end.

(** [str.strip(chars)]. *)
Definition str_strip (chars s : string) : string :=
  rstrip chars (lstrip chars s).

(** The rules table: named text columns, as read from [rules_sorted.csv]. *)
Definition Table := list (string * list string).

(** [table[name]]. *)
Definition Table_getitem (t : Table) (name : string) : result (list string) :=
  match lookup name t with
  | Some cells => Ok cells
  | None => Raise "KeyError"
  end.

(** [table[name] = cells]: replaces the column in place, or appends it. *)
Fixpoint Table_setitem (t : Table) (name : string) (cells : list string)
  : Table :=
  match t with
  | [] => [(name, cells)]
  | (k, v) :: t' => if String.eqb name k then (k, cells) :: t'
                    else (k, v) :: Table_setitem t' name cells
  end.

(** [table[[names]]]: the named columns, in the order asked. *)
Fixpoint Table_select (t : Table) (names : list string) : result Table :=
  match names with
  | [] => Ok []
  | n :: names' =>
      cells <- Table_getitem t n ;;
      rest <- Table_select t names' ;;
      Ok ((n, cells) :: rest)
  end.

(** [table.head(n)]. *)
Definition Table_head (n : nat) (t : Table) : Table :=
  map (fun kc => (fst kc, firstn n (snd kc))) t.

(** Lines 101 and 102:
    [rules[c] = rules[c].str.replace("frozenset", "").str.strip("(){}")],
    on a column of text cells. *)
Definition clean_column (t : Table) (c : string) : result Table :=
  cells <- Table_getitem t c ;;
  Ok (Table_setitem t c
        (map (fun x => str_strip "(){}" (str_replace "frozenset" "" x)) cells)).

(** ** The script as a state machine *)

(** What the outside provides on one run of the script: the three CSV files
    (absent, or their parsed rows) and the positions chosen in the three
    select boxes. *)
Record World := mkWorld {
  clothing_retail_300_csv : option (list Txn);
  rfm_with_clusters_csv : option (list Customer);
  rules_sorted_csv : option Table;
  country_choice : nat;
  season_choice : nat;
  cluster_choice : nat
}.

(** Elements rendered on the page, in order.  Layout-only calls (titles,
    subheaders, styling) are kept by source line only. *)
Inductive Event :=
| Decor (line : nat)
| Showing (country season : option string)
| DataframeRfm (rows : Frame Customer)
| Metric (label : string) (value : num)
| Pyplot (points : Frame PcaDf.row)
| BarChart (counts : list (string * nat))
| LineChart (counts : list (string * option nat))
| AreaChart (totals : list (string * option R))
| DataframeRules (t : Table)
| Warning (line : nat)
| DownloadButton (rows : list Customer).

(** The module-level variables of the script ([None]: not assigned yet) and
    the page rendered so far. *)
Record Env := mkEnv {
  df : option (Frame Txn);
  rfm : option (Frame Customer);
  country : option (option string);
  season : option (option string);
  filtered_df : option (Frame Txn);
  selected_cluster : option (option Z);
  filtered_rfm : option (Frame Customer);
  X : option (list vec3);
  pca_coords : option (list (R * R));
  pca_df : option (Frame PcaDf.row);
  top_categories : option (list (string * nat));
  size_counts : option (list (string * option nat));
  gender_counts : option (list (string * nat));
  seasonal_revenue : option (list (string * option R));
  rules : option (Table);
  screen : list Event
}.

(** Assignment to one variable; the others keep their value. *)
Definition set_df (v : option (Frame Txn)) (e : Env) : Env :=
  match e with
  | mkEnv d r c s fd sc fr x pc pd tc zc gc sr ru scr =>
    mkEnv v r c s fd sc fr x pc pd tc zc gc sr ru scr
  end.

Definition set_rfm (v : option (Frame Customer)) (e : Env) : Env :=
  match e with
  | mkEnv d r c s fd sc fr x pc pd tc zc gc sr ru scr =>
    mkEnv d v c s fd sc fr x pc pd tc zc gc sr ru scr
  end.

Definition set_country (v : option (option string)) (e : Env) : Env :=
  match e with
  | mkEnv d r c s fd sc fr x pc pd tc zc gc sr ru scr =>
    mkEnv d r v s fd sc fr x pc pd tc zc gc sr ru scr
  end.

Definition set_season (v : option (option string)) (e : Env) : Env :=
  match e with
  | mkEnv d r c s fd sc fr x pc pd tc zc gc sr ru scr =>
    mkEnv d r c v fd sc fr x pc pd tc zc gc sr ru scr
  end.

Definition set_filtered_df (v : option (Frame Txn)) (e : Env) : Env :=
  match e with
  | mkEnv d r c s fd sc fr x pc pd tc zc gc sr ru scr =>
    mkEnv d r c s v sc fr x pc pd tc zc gc sr ru scr
  end.

Definition set_selected_cluster (v : option (option Z)) (e : Env) : Env :=
  match e with
  | mkEnv d r c s fd sc fr x pc pd tc zc gc sr ru scr =>
    mkEnv d r c s fd v fr x pc pd tc zc gc sr ru scr
  end.

Definition set_filtered_rfm (v : option (Frame Customer)) (e : Env) : Env :=
  match e with
  | mkEnv d r c s fd sc fr x pc pd tc zc gc sr ru scr =>
    mkEnv d r c s fd sc v x pc pd tc zc gc sr ru scr
  end.

Definition set_X (v : option (list vec3)) (e : Env) : Env :=
  match e with
  | mkEnv d r c s fd sc fr x pc pd tc zc gc sr ru scr =>
    mkEnv d r c s fd sc fr v pc pd tc zc gc sr ru scr
  end.

Definition set_pca_coords (v : option (list (R * R))) (e : Env) : Env :=
  match e with
  | mkEnv d r c s fd sc fr x pc pd tc zc gc sr ru scr =>
    mkEnv d r c s fd sc fr x v pd tc zc gc sr ru scr
  end.

Definition set_pca_df (v : option (Frame PcaDf.row)) (e : Env) : Env :=
  match e with
  | mkEnv d r c s fd sc fr x pc pd tc zc gc sr ru scr =>
    mkEnv d r c s fd sc fr x pc v tc zc gc sr ru scr
  end.

Definition set_top_categories (v : option (list (string * nat))) (e : Env)
  : Env :=
  match e with
  | mkEnv d r c s fd sc fr x pc pd tc zc gc sr ru scr =>
    mkEnv d r c s fd sc fr x pc pd v zc gc sr ru scr
  end.

Definition set_size_counts (v : option (list (string * option nat)))
    (e : Env) : Env :=
  match e with
  | mkEnv d r c s fd sc fr x pc pd tc zc gc sr ru scr =>
    mkEnv d r c s fd sc fr x pc pd tc v gc sr ru scr
  end.

Definition set_gender_counts (v : option (list (string * nat))) (e : Env)
  : Env :=
  match e with
  | mkEnv d r c s fd sc fr x pc pd tc zc gc sr ru scr =>
    mkEnv d r c s fd sc fr x pc pd tc zc v sr ru scr
  end.

Definition set_seasonal_revenue (v : option (list (string * option R)))
    (e : Env) : Env :=
  match e with
  | mkEnv d r c s fd sc fr x pc pd tc zc gc sr ru scr =>
    mkEnv d r c s fd sc fr x pc pd tc zc gc v ru scr
  end.

Definition set_rules (v : option (Table)) (e : Env) : Env :=
  match e with
  | mkEnv d r c s fd sc fr x pc pd tc zc gc sr ru scr =>
    mkEnv d r c s fd sc fr x pc pd tc zc gc sr v scr
  end.

Definition set_screen (v : list Event) (e : Env) : Env :=
  match e with
  | mkEnv d r c s fd sc fr x pc pd tc zc gc sr ru scr =>
    mkEnv d r c s fd sc fr x pc pd tc zc gc sr ru v
  end.

Definition empty_env : Env :=
  mkEnv None None None None None None None None None None None None None None
        None [].

(** Reading a variable that has not been assigned raises [NameError]. *)
Definition name {A} (x : option A) : result A :=
  match x with
  | Some a => Ok a
  | None => Raise "NameError"
  end.

Definition emit (ev : Event) (e : Env) : Env := set_screen (screen e ++ [ev]) e.

(** A simple statement, tagged with its source line. *)
Record line := mkLine {
  lineno : nat;
  effect : Env -> result Env
}.

(** The script has simple statements and one [try ... except] block whose
    body and handler are simple statements. *)
Inductive stmt :=
| Simple (l : line)
| TryExcept (body : list line) (exc : string) (handler : list line).

(** How a run ends: normally, or with an uncaught exception; either way with
    the variables and the page as they were at that point. *)
Inductive outcome :=
| Normal (e : Env)
| Raised (exc : string) (at_line : nat) (e : Env).

Fixpoint run_lines (ls : list line) (e : Env) : outcome :=
  match ls with
  | [] => Normal e
  | l :: ls' =>
      match effect l e with
      | Ok e' => run_lines ls' e'
      | Raise exc => Raised exc (lineno l) e
      end
  end.

Definition exec (s : stmt) (e : Env) : outcome :=
  match s with
  | Simple l => run_lines [l] e
  | TryExcept body exc handler =>
      match run_lines body e with
      | Normal e' => Normal e'
      | Raised x n e' =>
          if String.eqb x exc then run_lines handler e' else Raised x n e'
      end
  end.

Fixpoint run (prog : list stmt) (e : Env) : outcome :=
  match prog with
  | [] => Normal e
  | s :: prog' =>
      match exec s e with
      | Normal e' => run prog' e'
      | Raised x n e' => Raised x n e'
      end
  end.


(** Line 48: [filtered_df =
    df[(df["Country"] == country) & (df["Season"] == season)]]. *)
Definition filter_df (df : Frame Txn) (country season : option string)
  : Frame Txn :=
  getitem_mask df (and_mask (eq_mask String.eqb (getcol Country df) country)
                            (eq_mask String.eqb (getcol Season df) season)).

(** [pd.read_csv(path)]: a missing file raises [FileNotFoundError]; a file
    is given by its parsed rows, so it has its header line and the columns
    that the script reads. *)
Definition read_csv {A} (file : option (list A)) : result (Frame A) :=
  match file with
  | Some rows => Ok (RangeIndex rows)
  | None => Raise "FileNotFoundError"
  end.

(** [pd.read_csv(path)] on the rules file, given by its columns of raw
    cells; the script treats the columns it cleans as text ([parsed_rules]
    below says when pandas reads them so). *)
Definition read_csv_table (file : option Table) : result Table :=
  match file with
  | Some t => Ok t
  | None => Raise "FileNotFoundError"
  end.

Definition decor (n : nat) : line := mkLine n (fun e => Ok (emit (Decor n) e)).

(** The blocks below follow the sections of [app.py]; the number of each
    statement is its source line. *)

(** Page configuration, styling, logo and title (lines 9-37). *)
Definition page_header : list line := [decor 9; decor 31; decor 34; decor 37].

(** [# --- Load data ---] (lines 40-41). *)
Definition load_data (w : World) : list line := [
  mkLine 40 (fun e =>
    t <- read_csv (clothing_retail_300_csv w) ;; Ok (set_df (Some t) e));
  mkLine 41 (fun e =>
    t <- read_csv (rfm_with_clusters_csv w) ;; Ok (set_rfm (Some t) e)) ].

(** [# --- Sidebar Filters ---] (lines 44-49). *)
Definition sidebar_filters (w : World) : list line := [
  decor 44;
  mkLine 45 (fun e =>
    d <- name (df e) ;;
    Ok (set_country
          (Some (selectbox (unique String.eqb (values (getcol Country d)))
                           (country_choice w))) e));
  mkLine 46 (fun e =>
    d <- name (df e) ;;
    Ok (set_season
          (Some (selectbox (unique String.eqb (values (getcol Season d)))
                           (season_choice w))) e));
  mkLine 48 (fun e =>
    d <- name (df e) ;; c <- name (country e) ;; s <- name (season e) ;;
    Ok (set_filtered_df (Some (filter_df d c s)) e));
  mkLine 49 (fun e =>
    c <- name (country e) ;; s <- name (season e) ;;
    Ok (emit (Showing c s) e)) ].

(** [# --- Cluster Selector ---], the select box (lines 52-53). *)
Definition cluster_selector (w : World) : list line := [
  decor 52;
  mkLine 53 (fun e =>
    r <- name (rfm e) ;;
    Ok (set_selected_cluster
          (Some (selectbox
                   (sorted Z.leb (unique Z.eqb (values (getcol Cluster r))))
                   (cluster_choice w))) e)) ].

(** The table and the three metrics of the selected segment (lines 54-60). *)
Definition segment_metrics : list line := [
  mkLine 54 (fun e =>
    r <- name (rfm e) ;; c <- name (selected_cluster e) ;;
    Ok (set_filtered_rfm (Some (filter_rfm r c)) e));
  mkLine 55 (fun e =>
    f <- name (filtered_rfm e) ;; Ok (emit (DataframeRfm f) e));
  decor 57;
  mkLine 58 (fun e =>
    f <- name (filtered_rfm e) ;;
    Ok (emit (Metric "Avg. Recency" (Series_mean (getcol Recency f))) e));
  mkLine 59 (fun e =>
    f <- name (filtered_rfm e) ;;
    Ok (emit (Metric "Avg. Frequency" (Series_mean (getcol Frequency f))) e));
  mkLine 60 (fun e =>
    f <- name (filtered_rfm e) ;;
    Ok (emit (Metric "Avg. Monetary" (Series_mean (getcol Monetary f))) e)) ].

Section Script.

(** The eigen-solver of the linear-algebra backend, as in [project]. *)
Variable solver : list vec3 -> vec3 * vec3.

(** [# --- PCA Visualization ---]: the projection (lines 63-69). *)
Definition pca_projection : list line := [
  decor 63;
  mkLine 65 (fun e =>
    r <- name (rfm e) ;;
    M <- StandardScaler_fit_transform (to_array r) ;;
    Ok (set_X (Some M) e));
  mkLine 67 (fun e =>
    M <- name (X e) ;;
    c <- PCA_fit_transform solver M ;;
    Ok (set_pca_coords (Some c) e));
  mkLine 68 (fun e =>
    c <- name (pca_coords e) ;; Ok (set_pca_df (Some (DataFrame_PC c)) e));
  mkLine 69 (fun e =>
    p <- name (pca_df e) ;; r <- name (rfm e) ;;
    Ok (set_pca_df (Some (setitem_Cluster p (getcol Cluster r))) e)) ].

(** The scatter plot (lines 71-75): line 73 draws [pca_df] on the figure that
    line 75 shows; no statement in between assigns a variable. *)
Definition pca_plot : list line := [
  mkLine 73 (fun e => p <- name (pca_df e) ;; Ok (emit (Pyplot p) e)) ].

(** Category, size and gender breakdowns of the filtered transactions
    (lines 78-90). *)
Definition breakdowns : list line := [
  decor 78;
  mkLine 79 (fun e =>
    f <- name (filtered_df e) ;;
    Ok (set_top_categories
          (Some (firstn 5 (value_counts (values (getcol Category f))))) e));
  mkLine 80 (fun e =>
    t <- name (top_categories e) ;; Ok (emit (BarChart t) e));
  decor 83;
  mkLine 84 (fun e =>
    f <- name (filtered_df e) ;;
    Ok (set_size_counts
          (Some (reindex (value_counts (values (getcol Size f)))
                         ["XS"; "S"; "M"; "L"; "XL"]%string)) e));
  mkLine 85 (fun e =>
    t <- name (size_counts e) ;; Ok (emit (LineChart t) e));
  decor 88;
  mkLine 89 (fun e =>
    f <- name (filtered_df e) ;;
    Ok (set_gender_counts (Some (value_counts (values (getcol Gender f)))) e));
  mkLine 90 (fun e =>
    t <- name (gender_counts e) ;; Ok (emit (BarChart t) e)) ].

(** [# --- Seasonal Revenue ---] (lines 93-95). *)
Definition seasonal_revenue_chart : list line := [
  decor 93;
  mkLine 94 (fun e =>
    d <- name (df e) ;;
    Ok (set_seasonal_revenue
          (Some (reindex (groupby_sum Season LineTotal (values d))
                         ["Winter"; "Spring"; "Summer"; "Fall"]%string)) e));
  mkLine 95 (fun e =>
    t <- name (seasonal_revenue e) ;; Ok (emit (AreaChart t) e)) ].

(** [# --- Association Rules Table ---]: the [try] block (lines 99-105). *)
Definition association_rules (w : World) : stmt :=
  TryExcept
    [ mkLine 100 (fun e =>
        t <- read_csv_table (rules_sorted_csv w) ;; Ok (set_rules (Some t) e));
      mkLine 101 (fun e =>
        t <- name (rules e) ;; t' <- clean_column t "antecedents" ;;
        Ok (set_rules (Some t') e));
      mkLine 102 (fun e =>
        t <- name (rules e) ;; t' <- clean_column t "consequents" ;;
        Ok (set_rules (Some t') e));
      mkLine 103 (fun e =>
        t <- name (rules e) ;;
        v <- Table_select t ["antecedents"; "consequents"; "support";
                             "confidence"; "lift"]%string ;;
        Ok (emit (DataframeRules (Table_head 10 v)) e)) ]
    "FileNotFoundError"
    [ mkLine 105 (fun e => Ok (emit (Warning 105) e)) ].

(** Download button, caption and deployment note (lines 108-113). *)
Definition page_footer : list line := [
  mkLine 108 (fun e =>
    r <- name (rfm e) ;; Ok (emit (DownloadButton (values r)) e));
  decor 110; decor 113 ].

(** [app.py]. *)
Definition app_py (w : World) : list stmt :=
  map Simple (page_header ++ load_data w ++ sidebar_filters w
              ++ cluster_selector w ++ segment_metrics
              ++ pca_projection ++ pca_plot ++ breakdowns
              ++ seasonal_revenue_chart ++ [decor 98])
  ++ [association_rules w]
  ++ map Simple page_footer.

(** One run of the dashboard. *)
Definition dashboard (w : World) : outcome := run (app_py w) empty_env.

End Script.


(** ** Observing a run *)

(** The variables and the page at the end of a run. *)
Definition final (o : outcome) : Env :=
  match o with
  | Normal e => e
  | Raised _ _ e => e
  end.

(** The uncaught exception that ended a run, with the line that raised it. *)
Definition raised (o : outcome) : option (string * nat) :=
  match o with
  | Normal _ => None
  | Raised exc n _ => Some (exc, n)
  end.

(** The rendered elements that show the segment table, its metrics, the PCA
    scatter plot and the seasonal revenue. *)
Definition unfiltered_view (evs : list Event) : list Event :=
  filter (fun ev => match ev with
                    | DataframeRfm _ | Metric _ _ | Pyplot _ | AreaChart _ =>
                        true
                    | _ => false
                    end) evs.

(** What a run computed for the PCA projection, the selected segment and the
    seasonal revenue: the variables and what was rendered from them. *)
Definition unfiltered_outputs (o : outcome) :=
  (pca_df (final o), filtered_rfm (final o), seasonal_revenue (final o),
   unfiltered_view (screen (final o))).

(** The same files and cluster choice, with other positions chosen in the
    country and season select boxes. *)
Definition with_filter (w : World) (c s : nat) : World :=
  mkWorld (clothing_retail_300_csv w) (rfm_with_clusters_csv w)
          (rules_sorted_csv w) c s (cluster_choice w).

(** ** Notions used to state further properties *)

(** Whether a string begins with, ends with, or consists of characters of a
    set, and whether a pattern occurs in it. *)
Definition starts_in (chars s : string) : bool :=
  match s with
  | EmptyString => false
  | String c _ => mem_char c chars
  end.

Fixpoint ends_in (chars s : string) : bool :=
  match s with
  | EmptyString => false
  | String c EmptyString => mem_char c chars
  | String _ s' => ends_in chars s'
  end.

Fixpoint all_in (chars s : string) : bool :=
  match s with
  | EmptyString => true
  | String c s' => mem_char c chars && all_in chars s'
  end.

Fixpoint occurs (pat s : string) : bool :=
  match s with
  | EmptyString => String.prefix pat EmptyString
  | String _ s' => String.prefix pat s || occurs pat s'
  end.

Definition has_column (t : Table) (n : string) : bool :=
  match lookup n t with
  | Some _ => true
  | None => false
  end.

(** The exception with which lines 99-105 end, by what the rules file
    holds: none when the file is missing (the warning is shown) or has the
    five columns; otherwise the [KeyError] of the first statement that asks
    for a missing column. *)
Definition rules_block_raises (file : option Table) : option (string * nat) :=
  match file with
  | None => None
  | Some t =>
      if negb (has_column t "antecedents")
      then Some ("KeyError"%string, 101%nat)
      else if negb (has_column t "consequents")
      then Some ("KeyError"%string, 102%nat)
      else if has_column t "support" && has_column t "confidence"
              && has_column t "lift"
      then None
      else Some ("KeyError"%string, 103%nat)
  end.

(** The exception with which a whole run ends, by what the three files
    hold. *)
Definition run_ends_with (w : World) : option (string * nat) :=
  match clothing_retail_300_csv w, rfm_with_clusters_csv w with
  | None, _ => Some ("FileNotFoundError"%string, 40%nat)
  | Some _, None => Some ("FileNotFoundError"%string, 41%nat)
  | Some _, Some [] => Some ("ValueError"%string, 65%nat)
  | Some _, Some [_] => Some ("ValueError"%string, 67%nat)
  | Some _, Some (_ :: _ :: _) => rules_block_raises (rules_sorted_csv w)
  end.



(** A customer with one feature expressed in another unit:
    [a * value + b]. *)
Definition rescale (j : feature) (a b : R) (r : Customer) : Customer :=
  match j with
  | FRecency =>
      mkCustomer (a * Recency r + b) (Frequency r) (Monetary r) (Cluster r)
  | FFrequency =>
      mkCustomer (Recency r) (a * Frequency r + b) (Monetary r) (Cluster r)
  | FMonetary =>
      mkCustomer (Recency r) (Frequency r) (a * Monetary r + b) (Cluster r)
  end.

(** *** Cells that [pd.read_csv] keeps as text *)

Definition lower (c : ascii) : ascii :=
  let n := nat_of_ascii c in
  if ((65 <=? n) && (n <=? 90))%nat then ascii_of_nat (n + 32) else c.

Fixpoint lowercase (s : string) : string :=
  match s with
  | EmptyString => EmptyString
  | String c s' => String (lower c) (lowercase s')
  end.

(** The markers that [pd.read_csv] reads as a missing value, in lower
    case. *)
Definition na_markers : list string :=
  [""; "#n/a"; "#n/a n/a"; "#na"; "-1.#ind"; "-1.#qnan"; "-nan"; "1.#ind";
   "1.#qnan"; "<na>"; "n/a"; "na"; "null"; "nan"; "none"]%string.

Definition bool_words : list string := ["true"; "false"]%string.

(** Tab, line feed, vertical tab, form feed, carriage return and space. *)
Definition whitespace : string :=
  String "009" (String "010" (String "011" (String "012" (String "013"
    (String " " EmptyString))))).

(** The characters that decimal numbers are written with, and the words
    that are read as numbers. *)
Definition number_chars : string := append "0123456789+-.eE" whitespace.

Definition number_words : list string := ["inf"; "infinity"; "nan"]%string.

(** A cell that [pd.read_csv] keeps as the text it is, whatever else its
    column holds: it is no missing-value marker and no boolean word, it is
    not made of the characters of decimal numbers only, and it is not a
    signed [inf], [infinity] or [nan]; the case of letters is ignored.  The
    test is sufficient, not necessary. *)
Definition reads_as_text (s : string) : bool :=
  negb (existsb (String.eqb (lowercase s)) na_markers)
  && negb (existsb (String.eqb (lowercase s)) bool_words)
  && negb (all_in number_chars s)
  && negb (existsb (String.eqb (lowercase (str_strip (append "+-" whitespace) s)))
                   number_words).

(** A rules file as [pd.read_csv] parses it without changing a cell of the
    two columns that the script cleans: the file has a header, and the
    antecedents and the consequents, where present, are text. *)
Definition text_column (t : Table) (n : string) : Prop :=
  forall cells, lookup n t = Some cells ->
                Forall (fun x => reads_as_text x = true) cells.

Definition parsed_rules (t : Table) : Prop :=
  t <> [] /\ text_column t "antecedents" /\ text_column t "consequents".

(** *** Customer rows of ordinary size *)

(** A label that fits a 64-bit integer column, and a feature small enough
    for the sums and squares of the standardization to stay far from the
    largest binary64 number. *)
Definition int64 (z : Z) : Prop := (- 2 ^ 63 <= z < 2 ^ 63)%Z.

Definition moderate (x : R) : Prop := Rabs x <= 10 ^ 100.

Definition tame (r : Customer) : Prop :=
  moderate (Recency r) /\ moderate (Frequency r) /\ moderate (Monetary r)
  /\ int64 (Cluster r).

(** ** Fixtures *)

(** Three customers of one segment with monetary values 10, 20 and 30. *)
Definition fixture3 : list Customer :=
  [mkCustomer 5 1 10 0; mkCustomer 7 2 20 0; mkCustomer 9 3 30 0].

(** A table with a single customer. *)
Definition fixture1 : list Customer := [mkCustomer 5 1 10 0].

(** The two pairs of identical customers of the specification's scenario;
    frequency is constant. *)
Definition fixture_pairs : list Customer :=
  [mkCustomer 1 1 1 0; mkCustomer 1 1 1 0; mkCustomer 100 1 1000 1;
   mkCustomer 100 1 1000 1].

(** A solver that answers with the diagonal of recency and monetary, then
    the frequency axis. *)
Definition fixture_diagonal (Mc : list vec3) : vec3 * vec3 :=
  ((/ sqrt 2, 0, / sqrt 2), (0, 1, 0)).

(** Two transactions in different countries, seasons and sizes. *)
Definition fixture_txns : list Txn :=
  [mkTxn "UK" "Winter" "Coats" "S" "F" 120;
   mkTxn "France" "Summer" "Dresses" "M" "F" 80].

(** A world with the transaction and RFM files but no rules file. *)
Definition fixture_world : World :=
  mkWorld (Some fixture_txns) (Some fixture_pairs) None 0 0 0.

(** A rules file as the mining step writes it, with one column the page
    does not show. *)
Definition fixture_rules : Table :=
  [("antecedents", ["frozenset({'Coats'})"; "frozenset({'Hats', 'Scarves'})"]);
   ("consequents", ["frozenset({'Gloves'})"; "frozenset({'Coats'})"]);
   ("antecedent support", ["0.4"; "0.2"]);
   ("support", ["0.3"; "0.1"]);
   ("confidence", ["0.75"; "0.5"]);
   ("lift", ["1.5"; "1.2"])]%string.

(** ** Binary64 semantics of the numeric lines *)

(** The segment means (lines 58-60), the standardization (line 65) and the
    input checks of the PCA (line 67) as pandas, NumPy and scikit-learn
    compute them on [float64] columns: every operation rounds to binary64,
    a sum can overflow to an infinity, and a missing cell is a NaN.  Integer
    columns are cast to [float64] before any of this arithmetic. *)
Module B64.
Import PrimFloat.
#[local] Set Warnings "-inexact-float".
Local Open Scope float_scope.

(** One row of [rfm_with_clusters.csv], its numeric cells as [float64]. *)
Record Customer := mkCustomer {
  Recency : float;
  Frequency : float;
  Monetary : float;
  Cluster : Z
}.

(** An [int64] count as a [float64]. *)
Definition of_nat (n : nat) : float := of_uint63 (Uint63.of_Z (Z.of_nat n)).

(** *** [np.sum] over a contiguous [float64] array *)

(** NumPy adds up a contiguous array by pairwise summation: fewer than 8
    elements one after the other; up to 128 elements on 8 accumulators that
    are combined as a tree, the remainder one after the other; longer
    arrays split in two halves (the left one a multiple of 8), summed
    separately. *)
Definition acc8 : Type :=
  float * float * float * float * float * float * float * float.

Definition tree8 (r : acc8) : float :=
  let '(r0, r1, r2, r3, r4, r5, r6, r7) := r in
  ((r0 + r1) + (r2 + r3)) + ((r4 + r5) + (r6 + r7)).

Fixpoint unrolled_loop (r : acc8) (a : list float) : float :=
  match a with
  | a0 :: a1 :: a2 :: a3 :: a4 :: a5 :: a6 :: a7 :: a' =>
      let '(r0, r1, r2, r3, r4, r5, r6, r7) := r in
      unrolled_loop (r0 + a0, r1 + a1, r2 + a2, r3 + a3,
                     r4 + a4, r5 + a5, r6 + a6, r7 + a7) a'
  | _ => fold_left add a (tree8 r)
  end.

Definition block_sum (a : list float) : float :=
  match a with
  | a0 :: a1 :: a2 :: a3 :: a4 :: a5 :: a6 :: a7 :: a' =>
      unrolled_loop (a0, a1, a2, a3, a4, a5, a6, a7) a'
  | _ => fold_left add a neg_zero
  end.

(** [depth] bounds the number of nested splits; an array is halved at most
    as many times as it has elements. *)
Fixpoint pairwise_sum (depth : nat) (a : list float) : float :=
  match depth with
  | S d =>
      if (128 <? length a)%nat then
        let n2 := (length a / 2 - (length a / 2) mod 8)%nat in
        pairwise_sum d (firstn n2 a) + pairwise_sum d (skipn n2 a)
      else block_sum a
  | O => block_sum a
  end.

Definition np_sum (a : list float) : float :=
  match a with
  | [] => 0
  | _ :: _ => pairwise_sum (length a) a
  end.

(** *** [Series.mean()] *)

Definition nan_to_zero (x : float) : float := if is_nan x then 0 else x.

(** The cells that are not missing. *)
Definition notna (a : list float) : list float :=
  filter (fun x => negb (is_nan x)) a.

(** pandas skips missing cells: it sums the column with the missing cells
    set to zero and divides by the number of cells present; the mean of no
    cell is NaN. *)
Definition nanmean (a : list float) : float :=
  match notna a with
  | [] => nan
  | _ :: _ => np_sum (map nan_to_zero a) / of_nat (length (notna a))
  end.

Definition Series_mean (s : Series float) : float := nanmean (values s).

(** The mean of a column without missing cells, as it is computed. *)
Definition arith_mean (a : list float) : float :=
  np_sum a / of_nat (length a).

(** *** Segment metrics (lines 54, 58-60) *)

Record SegmentStats := mkStats {
  count : nat;
  avgRecency : float;
  avgFrequency : float;
  avgMonetary : float
}.

Definition filter_rfm (rfm : Frame Customer) (selected_cluster : option Z)
  : Frame Customer :=
  getitem_mask rfm (eq_mask Z.eqb (getcol Cluster rfm) selected_cluster).

Definition summarize (rfm : Frame Customer) (selected_cluster : option Z)
  : SegmentStats :=
  let filtered_rfm := filter_rfm rfm selected_cluster in
  {| count := length filtered_rfm;
     avgRecency := Series_mean (getcol Recency filtered_rfm);
     avgFrequency := Series_mean (getcol Frequency filtered_rfm);
     avgMonetary := Series_mean (getcol Monetary filtered_rfm) |}.

Definition with_label (records : list Customer) (c : Z) : list Customer :=
  filter (fun r => Z.eqb (Cluster r) c) records.

(** *** Feature matrix *)

Definition vec3 : Type := float * float * float.

Definition vget (j : feature) (v : vec3) : float :=
  match v, j with
  | (a, _, _), FRecency => a
  | (_, b, _), FFrequency => b
  | (_, _, c), FMonetary => c
  end.

Definition feature_of (j : feature) (r : Customer) : float :=
  match j with
  | FRecency => Recency r
  | FFrequency => Frequency r
  | FMonetary => Monetary r
  end.

Definition to_array (rfm : Frame Customer) : list vec3 :=
  map (fun ir => (Recency (snd ir), Frequency (snd ir), Monetary (snd ir))) rfm.

Definition feature_rows (records : list Customer) : list vec3 :=
  map (fun r => (Recency r, Frequency r, Monetary r)) records.

Definition column (j : feature) (M : list vec3) : list float :=
  map (vget j) M.

Definition cell_any (p : float -> bool) (M : list vec3) : bool :=
  existsb (fun v => p (vget FRecency v) || p (vget FFrequency v)
                    || p (vget FMonetary v)) M.

Definition cell_all (p : float -> bool) (M : list vec3) : bool :=
  forallb (fun v => p (vget FRecency v) && p (vget FFrequency v)
                    && p (vget FMonetary v)) M.

(** *** [StandardScaler] (lines 64-65) *)

(** [np.finfo(np.float64).eps]. *)
Definition eps : float := 0x1p-52.

Section Fit.

(** The array being fitted and one of its features. *)
Variable M : list vec3.
Variable j : feature.

(** scikit-learn switches to [np.nansum] when any cell of the array is
    NaN. *)
Definition sum_op (a : list float) : float :=
  if cell_any is_nan M then np_sum (map nan_to_zero a) else np_sum a.

Definition new_sum : float := sum_op (column j M).

Definition new_sample_count : float := of_nat (length (notna (column j M))).

(** [mean_]: the running sum, zero before the first batch, plus the sum of
    the batch, over the count. *)
Definition mean_ : float := (0 + new_sum) / new_sample_count.

(** [var_]: the two-pass variance with its correction term. *)
Definition temp : list float :=
  map (fun x => x - new_sum / new_sample_count) (column j M).

Definition correction : float := sum_op temp.

Definition new_unnormalized_variance : float :=
  sum_op (map (fun t => t * t) temp)
  - correction * correction / new_sample_count.

Definition var_ : float := new_unnormalized_variance / new_sample_count.

(** A feature counts as constant when its variance does not exceed what
    rounding alone explains. *)
Definition is_constant_feature : bool :=
  var_ <=? new_sample_count * eps * var_
           + (new_sample_count * mean_ * eps) * (new_sample_count * mean_ * eps).

(** [scale_]: the standard deviation, replaced by one on a constant
    feature. *)
Definition scale_ : float := if is_constant_feature then 1 else sqrt var_.

Definition scaled (v : vec3) : float := (vget j v - mean_) / scale_.

End Fit.

Definition transform (M : list vec3) (v : vec3) : vec3 :=
  (scaled M FRecency v, scaled M FFrequency v, scaled M FMonetary v).

(** [StandardScaler().fit_transform(M)]: input validation lets NaN pass and
    rejects an infinite cell and an array with no rows. *)
Definition StandardScaler_fit_transform (M : list vec3) : result (list vec3) :=
  if cell_any is_infinity M then Raise "ValueError"
  else match M with
       | [] => Raise "ValueError"
       | _ :: _ => Ok (map (transform M) M)
       end.

Definition standardized (records : list Customer) : list vec3 :=
  map (transform (feature_rows records)) (feature_rows records).

(** *** [PCA(n_components=2)] (lines 66-69) *)

Definition dot (u v : vec3) : float :=
  vget FRecency u * vget FRecency v + vget FFrequency u * vget FFrequency v
  + vget FMonetary u * vget FMonetary v.

Definition center_row (M : list vec3) (v : vec3) : vec3 :=
  (vget FRecency v - arith_mean (column FRecency M),
   vget FFrequency v - arith_mean (column FFrequency M),
   vget FMonetary v - arith_mean (column FMonetary M)).

Definition center (M : list vec3) : list vec3 := map (center_row M) M.

Module PcaDf.
Record row := mkRow {
  PC1 : float;
  PC2 : float;
  Cluster : option Z
}.
End PcaDf.

Definition DataFrame_PC (pca_coords : list (float * float)) : Frame PcaDf.row :=
  RangeIndex (map (fun c => PcaDf.mkRow (fst c) (snd c) None) pca_coords).

Definition setitem_Cluster (f : Frame PcaDf.row) (s : Series Z)
  : Frame PcaDf.row :=
  map (fun ir => (fst ir, PcaDf.mkRow (PcaDf.PC1 (snd ir)) (PcaDf.PC2 (snd ir))
                                      (loc s (fst ir)))) f.

Section Projection.

(** The decomposition routine of the linear-algebra backend: from the
    centered array to the two rows of [components_]. *)
Variable solver : list vec3 -> vec3 * vec3.

(** [PCA(n_components=2).fit_transform(M)]: input validation rejects an
    array with a NaN or an infinite cell, and [n_components] must not exceed
    [min(n_samples, n_features)]; the result has one row per row of [M], the
    centered row on the two components (up to the rounding of the
    backend). *)
Definition PCA_fit_transform (M : list vec3) : result (list (float * float)) :=
  if negb (cell_all is_finite M) then Raise "ValueError"
  else if (2 <=? Nat.min (length M) 3)%nat then
    let Mc := center M in
    let w := solver Mc in
    Ok (map (fun x => (dot x (fst w), dot x (snd w))) Mc)
  else Raise "ValueError".

Definition point_of (records : list Customer) (r : Customer) : PcaDf.row :=
  let w := solver (center (standardized records)) in
  let x := center_row (standardized records)
             (transform (feature_rows records)
                        (Recency r, Frequency r, Monetary r)) in
  PcaDf.mkRow (dot x (fst w)) (dot x (snd w)) (Some (Cluster r)).

(** Lines 64-69 as one function. *)
Definition project (rfm : Frame Customer) : result (Frame PcaDf.row) :=
  X <- StandardScaler_fit_transform (to_array rfm) ;;
  pca_coords <- PCA_fit_transform X ;;
  Ok (setitem_Cluster (DataFrame_PC pca_coords) (getcol Cluster rfm)).

End Projection.

(** *** Notions used to state properties *)


(** *** Fixtures *)

(** Three customers of one segment with monetary values 10, 20 and 30. *)
Definition fixture3 : list Customer :=
  [mkCustomer 5 1 10 0; mkCustomer 7 2 20 0; mkCustomer 9 3 30 0].

Definition fixture1 : list Customer := [mkCustomer 5 1 10 0].

(** The two pairs of identical customers of the specification's scenario;
    frequency is constant. *)
Definition fixture_pairs : list Customer :=
  [mkCustomer 1 1 1 0; mkCustomer 1 1 1 0; mkCustomer 100 1 1000 1;
   mkCustomer 100 1 1000 1].

(** Two customers whose monetary values are finite and add up to more than
    the largest [float64]. *)
Definition fixture_huge : list Customer :=
  [mkCustomer 1 1 1e308 0; mkCustomer 2 3 1e308 0].


(** The recency axis, then the monetary axis. *)
Definition fixture_axes (Mc : list vec3) : vec3 * vec3 :=
  ((1, 0, 0), (0, 0, 1)).

End B64.

(** * Verification *)

(** ** The embedded library calls on small inputs *)

Example unique_sorted_labels :
  sorted Z.leb (unique Z.eqb [2; 0; 2; 1; 0]%Z) = [0; 1; 2]%Z.
Proof. reflexivity. Qed.

Example selectbox_default :
  selectbox (unique String.eqb ["UK"; "France"; "UK"]%string) 0 = Some "UK"%string
  /\ selectbox (@nil string) 0 = None.
Proof. split; reflexivity. Qed.

Example value_counts_sizes :
  value_counts ["M"; "S"; "M"; "L"; "S"; "M"]%string
  = [("M", 3); ("S", 2); ("L", 1)]%string%nat.
Proof. reflexivity. Qed.

Example reindex_sizes :
  reindex (value_counts ["M"; "S"; "M"]%string) ["XS"; "S"; "M"]%string
  = [("XS", None); ("S", Some 1); ("M", Some 2)]%string%nat.
Proof. reflexivity. Qed.

Example groupby_keys :
  map fst (groupby_sum Season LineTotal fixture_txns)
  = ["Summer"; "Winter"]%string.
Proof. reflexivity. Qed.

Example clean_frozenset :
  str_strip "(){}" (str_replace "frozenset" "" "frozenset({'Coats', 'Hats'})")
  = "'Coats', 'Hats'"%string.
Proof. reflexivity. Qed.

Example filter_df_fixture :
  values (filter_df (RangeIndex fixture_txns) (Some "France") (Some "Summer"))%string
  = [mkTxn "France" "Summer" "Dresses" "M" "F" 80].
Proof. reflexivity. Qed.

Example filter_rfm_fixture :
  filter_rfm (RangeIndex fixture_pairs) (Some 1%Z)
  = [(2%nat, mkCustomer 100 1 1000 1); (3%nat, mkCustomer 100 1 1000 1)].
Proof. reflexivity. Qed.

(** ** Lemmas on frames *)

Lemma loc_combine_seq {A} (xs : list A) (k i : nat) :
  loc (combine (seq k (length xs)) xs) (k + i) = nth_error xs i.
Proof.
  revert k i; induction xs as [|x xs IH]; intros k i; simpl.
  - now destruct i.
  - destruct i as [|i].
    + rewrite Nat.add_0_r, Nat.eqb_refl. reflexivity.
    + replace (Nat.eqb (k + S i) k) with false
        by (symmetry; apply Nat.eqb_neq; lia).
      replace (k + S i)%nat with (S k + i)%nat by lia. apply IH.
Qed.

Lemma loc_RangeIndex {A} (xs : list A) (i : nat) :
  loc (RangeIndex xs) i = nth_error xs i.
Proof. exact (loc_combine_seq xs 0 i). Qed.

Lemma index_RangeIndex {A} (xs : list A) :
  index (RangeIndex xs) = seq 0 (length xs).
Proof.
  unfold index, RangeIndex.
  generalize 0%nat; induction xs as [|x xs IH]; intros k; simpl; [easy|].
  now rewrite IH.
Qed.

Lemma values_RangeIndex {A} (xs : list A) : values (RangeIndex xs) = xs.
Proof.
  unfold values, RangeIndex.
  generalize 0%nat; induction xs as [|x xs IH]; intros k; simpl; [easy|].
  now rewrite IH.
Qed.

Lemma length_RangeIndex {A} (xs : list A) :
  length (RangeIndex xs) = length xs.
Proof.
  unfold RangeIndex. rewrite length_combine, length_seq. apply Nat.min_id.
Qed.

Lemma NoDup_index_RangeIndex {A} (xs : list A) : NoDup (index (RangeIndex xs)).
Proof. rewrite index_RangeIndex. apply seq_NoDup. Qed.

(** On a frame with distinct labels, a column computed row by row is found
    again under each row's label. *)
Lemma loc_rowwise {A B} (g : A -> B) (f : Frame A) (i : nat) (r : A) :
  NoDup (index f) -> In (i, r) f ->
  loc (map (fun ir => (fst ir, g (snd ir))) f) i = Some (g r).
Proof.
  unfold index. induction f as [|[j x] f IH]; simpl; intros ND Hin; [easy|].
  inversion ND as [|? ? Hnot ND']; subst.
  destruct Hin as [Heq|Hin].
  - inversion Heq; subst. now rewrite Nat.eqb_refl.
  - destruct (Nat.eqb_spec i j) as [->|_].
    + exfalso. apply Hnot. change j with (fst (j, r)). now apply in_map.
    + now apply IH.
Qed.

(** Boolean indexing by a mask computed from the frame's own rows is a plain
    filter on the rows. *)
Lemma getitem_mask_rowwise {A} (p : A -> bool) (f : Frame A) :
  NoDup (index f) ->
  getitem_mask f (map (fun ir => (fst ir, p (snd ir))) f)
  = filter (fun ir => p (snd ir)) f.
Proof.
  intros ND. unfold getitem_mask. apply filter_ext_in.
  intros [i r] Hin. simpl. now rewrite (loc_rowwise p f i r ND Hin).
Qed.

Lemma values_filter {A} (p : A -> bool) (f : Frame A) :
  values (filter (fun ir => p (snd ir)) f) = filter p (values f).
Proof.
  unfold values. induction f as [|[i r] f IH]; simpl; [easy|].
  destruct (p r); simpl; now rewrite IH.
Qed.

Lemma values_getcol {A B} (col : A -> B) (f : Frame A) :
  values (getcol col f) = map col (values f).
Proof. unfold values, getcol. now rewrite !map_map. Qed.

Lemma length_values {A} (s : Series A) : length (values s) = length s.
Proof. apply length_map. Qed.

Lemma filter_rfm_rows (rfm : Frame Customer) (c : Z) :
  NoDup (index rfm) ->
  filter_rfm rfm (Some c) = filter (fun ir => Z.eqb (Cluster (snd ir)) c) rfm.
Proof.
  intros ND. unfold filter_rfm, eq_mask, getcol. rewrite map_map. simpl.
  exact (getitem_mask_rowwise (fun r => Z.eqb (Cluster r) c) rfm ND).
Qed.

Lemma values_filter_rfm (records : list Customer) (c : Z) :
  values (filter_rfm (RangeIndex records) (Some c)) = with_label records c.
Proof.
  rewrite filter_rfm_rows by apply NoDup_index_RangeIndex.
  rewrite (values_filter (fun r => Z.eqb (Cluster r) c)).
  now rewrite values_RangeIndex.
Qed.



Lemma with_label_absent (records : list Customer) (c : Z) :
  ~ In c (map Cluster records) -> with_label records c = [].
Proof.
  intros Hnot. unfold with_label.
  induction records as [|r records IH]; simpl; [easy|].
  destruct (Z.eqb_spec (Cluster r) c) as [Heq|_].
  - exfalso. apply Hnot. simpl. now left.
  - apply IH. intros Hin. apply Hnot. simpl. now right.
Qed.

Lemma run_segment_metrics (e : Env) (r : Frame Customer) (c : option Z) :
  rfm e = Some r -> selected_cluster e = Some c ->
  run_lines segment_metrics e
  = Normal
      (emit (Metric "Avg. Monetary" (avgMonetary (summarize r c)))
         (emit (Metric "Avg. Frequency" (avgFrequency (summarize r c)))
            (emit (Metric "Avg. Recency" (avgRecency (summarize r c)))
               (emit (Decor 57)
                  (emit (DataframeRfm (filter_rfm r c))
                     (set_filtered_rfm (Some (filter_rfm r c)) e)))))).
Proof.
  intros Hr Hc. destruct e. cbn [rfm selected_cluster] in Hr, Hc. subst.
  reflexivity.
Qed.

(** C5: for a cluster label carried by none of the records, [summarize]
    returns a count of zero with not-a-number averages, and lines 54-60 of
    the script run to their end without raising, showing an empty table and
    the three not-a-number metrics. *)
Theorem summarize_absent_label (records : list Customer) (c : Z) :
  ~ In c (map Cluster records) ->
  summarize (RangeIndex records) (Some c) = mkStats 0 NaN NaN NaN /\
  forall e, rfm e = Some (RangeIndex records) ->
            selected_cluster e = Some (Some c) ->
    exists e', run_lines segment_metrics e = Normal e' /\
      screen e' = screen e ++ [DataframeRfm []; Decor 57;
                               Metric "Avg. Recency" NaN;
                               Metric "Avg. Frequency" NaN;
                               Metric "Avg. Monetary" NaN].
Proof.
  intros Habs.
  assert (filter_rfm (RangeIndex records) (Some c) = []) as Hnil.
  { pose proof (values_filter_rfm records c) as Hv.
    rewrite (with_label_absent records c Habs) in Hv.
    destruct (filter_rfm (RangeIndex records) (Some c)); [easy|discriminate]. }
  assert (summarize (RangeIndex records) (Some c) = mkStats 0 NaN NaN NaN)
    as Hsum by (unfold summarize; rewrite Hnil; reflexivity).
  split; [exact Hsum|].
  intros e Hr Hc. eexists. split.
  - rewrite (run_segment_metrics e _ _ Hr Hc). reflexivity.
  - rewrite Hsum, Hnil. destruct e. cbn. rewrite <- !app_assoc. reflexivity.
Qed.

Lemma summarize_absent_label_witness :
  ~ In 4%Z (map Cluster fixture3) /\
  summarize (RangeIndex fixture3) (Some 4%Z) = mkStats 0 NaN NaN NaN.
Proof.
  assert (~ In 4%Z (map Cluster fixture3)) as H.
  { simpl. intros [H|[H|[H|[]]]]; discriminate H. }
  split; [exact H|]. exact (proj1 (summarize_absent_label fixture3 4%Z H)).
Defined.

(** ** The projection returns one labelled point per record *)

Lemma loc_getcol {A B} (col : A -> B) (f : Frame A) (i : nat) :
  loc (getcol col f) i = option_map col (loc f i).
Proof.
  induction f as [|[j x] f IH]; simpl; [easy|].
  destruct (Nat.eqb i j); [easy|apply IH].
Qed.

Lemma to_array_RangeIndex (records : list Customer) :
  to_array (RangeIndex records) = feature_rows records.
Proof.
  unfold to_array, feature_rows.
  rewrite <- (values_RangeIndex records) at 2.
  unfold values. now rewrite map_map.
Qed.

Lemma setitem_Cluster_aligned (h : Customer -> PcaDf.row) (s : Series Z) :
  forall (records : list Customer) (k : nat),
    (forall i r, nth_error records i = Some r ->
                 loc s (k + i) = Some (Cluster r)) ->
    setitem_Cluster (combine (seq k (length (map h records))) (map h records)) s
    = combine (seq k (length records))
        (map (fun r => PcaDf.mkRow (PcaDf.PC1 (h r)) (PcaDf.PC2 (h r))
                                   (Some (Cluster r))) records).
Proof.
  induction records as [|r records IH]; intros k Hs; simpl; [easy|].
  f_equal.
  - f_equal. f_equal. rewrite <- (Nat.add_0_r k). now apply Hs.
  - apply IH. intros i r' Hi.
    replace (S k + i)%nat with (k + S i)%nat by lia. now apply Hs.
Qed.

Lemma StandardScaler_fit_transform_rows (M : list vec3) :
  M <> [] -> StandardScaler_fit_transform M = Ok (map (transform M) M).
Proof. destruct M; [easy|reflexivity]. Qed.

Lemma PCA_fit_transform_rows solver (M : list vec3) :
  (2 <= length M)%nat ->
  PCA_fit_transform solver M
  = Ok (map (fun x => (dot x (fst (solver (center M))),
                       dot x (snd (solver (center M))))) (center M)).
Proof.
  intros Hlen. unfold PCA_fit_transform.
  replace (2 <=? Nat.min (length M) 3)%nat with true
    by (symmetry; apply Nat.leb_le; lia).
  reflexivity.
Qed.

Lemma rows_of_records (feat : Customer -> vec3) (t c : vec3 -> vec3)
    (g : vec3 -> R * R) (records : list Customer) :
  map (fun xy => PcaDf.mkRow (fst xy) (snd xy) None)
      (map g (map c (map t (map feat records))))
  = map (fun r => PcaDf.mkRow (fst (g (c (t (feat r)))))
                              (snd (g (c (t (feat r))))) None) records.
Proof. now rewrite !map_map. Qed.

Section ProjectionFacts.

Variable solver : list vec3 -> vec3 * vec3.

Lemma project_RangeIndex (records : list Customer) :
  (2 <= length records)%nat ->
  project solver (RangeIndex records)
  = Ok (RangeIndex (map (point_of solver records) records)).
Proof.
  intros Hlen. unfold project.
  rewrite to_array_RangeIndex. unfold feature_rows.
  rewrite StandardScaler_fit_transform_rows
    by (destruct records; [simpl in Hlen; lia|discriminate]).
  cbn [bind].
  rewrite (PCA_fit_transform_rows solver) by (rewrite !length_map; exact Hlen).
  cbn [bind]. f_equal.
  set (w := solver _).
  unfold DataFrame_PC, RangeIndex, center.
  rewrite (rows_of_records _ (transform _) (center_row _)
             (fun x => (dot x (fst w), dot x (snd w)))).
  rewrite setitem_Cluster_aligned.
  - rewrite length_map. subst w. reflexivity.
  - intros i r Hi. simpl.
    fold (RangeIndex records).
    now rewrite loc_getcol, loc_RangeIndex, Hi.
Qed.

Lemma project_too_few (records : list Customer) :
  (length records < 2)%nat ->
  project solver (RangeIndex records) = Raise "ValueError".
Proof.
  intros Hlen. unfold project. rewrite to_array_RangeIndex.
  destruct records as [|r [|r' records]]; simpl in Hlen; try lia; reflexivity.
Qed.

End ProjectionFacts.

Lemma nth_error_combine_seq {A} (xs : list A) (k i : nat) (x : A) :
  nth_error xs i = Some x ->
  nth_error (combine (seq k (length xs)) xs) i = Some ((k + i)%nat, x).
Proof.
  revert k i; induction xs as [|y xs IH]; intros k [|i] Hi; simpl in *;
    try discriminate.
  - inversion Hi. now rewrite Nat.add_0_r.
  - rewrite (IH (S k) i Hi). f_equal. f_equal. lia.
Qed.

(** C3 (amended): on fewer than two records [project] fails, raising the
    [ValueError] of scikit-learn's input checks, and returns no
    coordinates. *)
Theorem project_too_few_records_raises
    (solver : list vec3 -> vec3 * vec3) (records : list Customer) :
  (length records < 2)%nat ->
  project solver (RangeIndex records) = Raise "ValueError".
Proof. apply project_too_few. Qed.

Lemma project_too_few_records_raises_witness :
  (length fixture1 < 2)%nat /\
  project fixture_diagonal (RangeIndex fixture1) = Raise "ValueError".
Proof.
  split; [simpl; lia|].
  apply (project_too_few_records_raises fixture_diagonal fixture1). simpl; lia.
Defined.

(** C3 as stated fails: the exception raised on a single record is not an
    [InsufficientDataError]. *)
Lemma project_raises_no_InsufficientDataError :
  ~ (forall solver records, (length records < 2)%nat ->
       project solver (RangeIndex records) = Raise "InsufficientDataError").
Proof.
  intros Hall.
  assert ((length fixture1 < 2)%nat) as Hlen by (simpl; lia).
  specialize (Hall fixture_diagonal fixture1 Hlen).
  rewrite (project_too_few fixture_diagonal fixture1 Hlen) in Hall.
  discriminate Hall.
Qed.

(** ** Sums of squared deviations *)






(** ** Centered columns and projected coordinates *)







Lemma map_dot_center_rows (Mfull : list vec3) (t : vec3 -> vec3)
    (feat : Customer -> vec3) (records : list Customer) (w : vec3) :
  map (fun x => dot x w) (map (center_row Mfull) (map t (map feat records)))
  = map (fun r => dot (center_row Mfull (t (feat r))) w) records.
Proof. now rewrite !map_map. Qed.

Section PrincipalAxes.

Variable solver : list vec3 -> vec3 * vec3.
Variable records : list Customer.

Lemma PC1_of_points :
  map PcaDf.PC1 (map (point_of solver records) records)
  = map (fun x => dot x (fst (solver (center (standardized records)))))
        (center (standardized records)).
Proof.
  rewrite (map_map (point_of solver records) PcaDf.PC1 records).
  symmetry.
  exact (map_dot_center_rows (standardized records)
           (transform (feature_rows records))
           (fun r => (Recency r, Frequency r, Monetary r)) records _).
Qed.

Lemma PC2_of_points :
  map PcaDf.PC2 (map (point_of solver records) records)
  = map (fun x => dot x (snd (solver (center (standardized records)))))
        (center (standardized records)).
Proof.
  rewrite (map_map (point_of solver records) PcaDf.PC2 records).
  symmetry.
  exact (map_dot_center_rows (standardized records)
           (transform (feature_rows records))
           (fun r => (Recency r, Frequency r, Monetary r)) records _).
Qed.

Lemma standardized_rows :
  records <> [] ->
  StandardScaler_fit_transform (to_array (RangeIndex records))
  = Ok (standardized records).
Proof.
  intros Hne. rewrite to_array_RangeIndex.
  apply StandardScaler_fit_transform_rows.
  unfold feature_rows. destruct records; [easy|discriminate].
Qed.

End PrincipalAxes.

(** The scenario of two pairs, standardized: frequency is mapped to zero,
    recency and monetary to -1 and +1. *)
Lemma fixture_pairs_standardized :
  standardized fixture_pairs = [(-1, 0, -1); (-1, 0, -1); (1, 0, 1); (1, 0, 1)].
Proof.
  assert (forall j, mean_ (feature_rows fixture_pairs) j
                    = match j with
                      | FRecency => 101 / 2
                      | FFrequency => 1
                      | FMonetary => 1001 / 2
                      end) as Hmean.
  { intros j. unfold mean_, arith_mean. destruct j; simpl; field. }
  assert (forall j, var_ (feature_rows fixture_pairs) j
                    = match j with
                      | FRecency => (99 / 2) * (99 / 2)
                      | FFrequency => 0
                      | FMonetary => (999 / 2) * (999 / 2)
                      end) as Hvar.
  { intros j. unfold var_, variance, sum_sq_dev, arith_mean.
    destruct j; simpl; field. }
  assert (forall j, scale_ (feature_rows fixture_pairs) j
                    = match j with
                      | FRecency => 99 / 2
                      | FFrequency => 1
                      | FMonetary => 999 / 2
                      end) as Hscale.
  { intros j. unfold scale_, handle_zeros_in_scale. rewrite Hvar.
    destruct j; rewrite ?sqrt_0, ?sqrt_square by lra;
      destruct (Req_dec_T _ 0); try reflexivity; lra. }
  unfold standardized, transform, scaled.
  rewrite !Hscale, !Hmean. simpl.
  repeat (f_equal; try (field; lra)).
Qed.

Lemma fixture_pairs_centered :
  center (standardized fixture_pairs)
  = [(-1, 0, -1); (-1, 0, -1); (1, 0, 1); (1, 0, 1)].
Proof.
  rewrite fixture_pairs_standardized.
  unfold center, center_row, mean_, arith_mean. simpl.
  repeat (f_equal; try lra).
Qed.


(** The scenario of the specification: the two pairs land on two distinct
    locations of the first axis, each pair on a single point. *)
Example scenario_two_locations :
  exists pts,
    project fixture_diagonal (RangeIndex fixture_pairs) = Ok pts /\
    map PcaDf.PC1 (values pts)
    = [- (2 * / sqrt 2); - (2 * / sqrt 2); 2 * / sqrt 2; 2 * / sqrt 2] /\
    map PcaDf.PC2 (values pts) = [0; 0; 0; 0] /\
    map PcaDf.Cluster (values pts) = [Some 0; Some 0; Some 1; Some 1]%Z.
Proof.
  eexists. split; [apply project_RangeIndex; simpl; lia|].
  rewrite values_RangeIndex, PC1_of_points, PC2_of_points.
  rewrite fixture_pairs_centered. unfold fixture_diagonal, dot. simpl.
  split; [|split; [|reflexivity]]; repeat (f_equal; try lra).
Qed.

(** ** Runs of the script *)

(** Symbolic execution of the script: unfold the blocks, run every statement
    whose outcome is determined, and split on the calls that may raise. *)
Ltac unfold_script :=
  unfold dashboard, app_py, page_header, load_data, sidebar_filters,
    cluster_selector, segment_metrics, pca_projection, pca_plot, breakdowns,
    seasonal_revenue_chart, association_rules, page_footer, decor.

Ltac step :=
  cbn [map Datatypes.app run exec run_lines effect lineno final raised
       read_csv read_csv_table bind name emit empty_env
       df rfm country season filtered_df selected_cluster filtered_rfm X
       pca_coords pca_df top_categories size_counts gender_counts
       seasonal_revenue rules screen
       set_df set_rfm set_country set_season set_filtered_df
       set_selected_cluster set_filtered_rfm set_X set_pca_coords set_pca_df
       set_top_categories set_size_counts set_gender_counts
       set_seasonal_revenue set_rules set_screen
       clothing_retail_300_csv rfm_with_clusters_csv rules_sorted_csv
       country_choice season_choice cluster_choice with_filter].

Ltac split_calls :=
  repeat match goal with
         | |- context [if String.eqb ?x ?x then _ else _] =>
             rewrite (String.eqb_refl x); step
         | |- context [if String.eqb ?x ?y then _ else _] =>
             is_var x; destruct (String.eqb x y) eqn:?; step
         | |- context [bind ?m _] => destruct m eqn:?; step
         end.

(** Membership of an event in a page given as an explicit list. *)
Ltac find_event := repeat first [left; reflexivity | right].

(** With at least one customer the scaler returns, and with at least two
    the projection does. *)
Lemma scaler_returns (customers : list Customer) :
  (1 <= length customers)%nat ->
  StandardScaler_fit_transform (to_array (RangeIndex customers))
  = Ok (standardized customers).
Proof.
  intros Hlen. apply standardized_rows.
  destruct customers; [simpl in Hlen; lia|discriminate].
Qed.

Lemma PCA_returns (solver : list vec3 -> vec3 * vec3)
    (customers : list Customer) :
  (2 <= length customers)%nat ->
  PCA_fit_transform solver (standardized customers)
  = Ok (map (fun x => (dot x (fst (solver (center (standardized customers)))),
                       dot x (snd (solver (center (standardized customers))))))
            (center (standardized customers))).
Proof.
  intros Hlen. apply PCA_fit_transform_rows.
  unfold standardized, feature_rows. now rewrite !length_map.
Qed.

Lemma run_app (p q : list stmt) (e : Env) :
  run (p ++ q) e
  = match run p e with
    | Normal e' => run q e'
    | Raised x n e' => Raised x n e'
    end.
Proof.
  revert e; induction p as [|s p IH]; intros e; simpl; [reflexivity|].
  destruct (exec s e); [apply IH|reflexivity].
Qed.



(** With both data files present and at least two customers, the run reaches
    the breakdown charts, computed from the filtered transactions. *)
Lemma breakdowns_of_run (solver : list vec3 -> vec3 * vec3) (w : World)
    (txns : list Txn) (customers : list Customer) :
  clothing_retail_300_csv w = Some txns ->
  rfm_with_clusters_csv w = Some customers ->
  (2 <= length customers)%nat ->
  let d := RangeIndex txns in
  let fd := filter_df d
              (selectbox (unique String.eqb (values (getcol Country d)))
                         (country_choice w))
              (selectbox (unique String.eqb (values (getcol Season d)))
                         (season_choice w)) in
  let e := final (dashboard solver w) in
  filtered_df e = Some fd /\
  top_categories e
  = Some (firstn 5 (value_counts (values (getcol Category fd)))) /\
  size_counts e = Some (reindex (value_counts (values (getcol Size fd)))
                                ["XS"; "S"; "M"; "L"; "XL"]%string) /\
  gender_counts e = Some (value_counts (values (getcol Gender fd))).
Proof.
  destruct w as [ft fr fru cc sc kc]. cbn [clothing_retail_300_csv
    rfm_with_clusters_csv country_choice season_choice].
  intros -> -> Hlen. unfold_script. step.
  rewrite (scaler_returns customers) by lia. step.
  rewrite (PCA_returns solver customers Hlen).
  step. split_calls; repeat split; reflexivity.
Qed.

Lemma fixture_size_counts (solver : list vec3 -> vec3 * vec3) :
  size_counts (final (dashboard solver fixture_world))
  = Some [("XS", None); ("S", Some 1%nat); ("M", None); ("L", None);
          ("XL", None)]%string /\
  size_counts (final (dashboard solver (with_filter fixture_world 1 1)))
  = Some [("XS", None); ("S", None); ("M", Some 1%nat); ("L", None);
          ("XL", None)]%string.
Proof.
  split.
  - destruct (breakdowns_of_run solver fixture_world fixture_txns fixture_pairs)
      as (_ & _ & H & _); [reflexivity|reflexivity|simpl; lia|].
    rewrite H. reflexivity.
  - destruct (breakdowns_of_run solver (with_filter fixture_world 1 1)
                fixture_txns fixture_pairs)
      as (_ & _ & H & _); [reflexivity|reflexivity|simpl; lia|].
    rewrite H. reflexivity.
Qed.

(** Lines 63-69 of the script compute [project] of the table in [rfm]. *)
Lemma run_pca_projection (solver : list vec3 -> vec3 * vec3) (e : Env)
    (r : Frame Customer) :
  rfm e = Some r ->
  match project solver r with
  | Ok pts => exists e', run_lines (pca_projection solver) e = Normal e' /\
                         pca_df e' = Some pts
  | Raise exc => exists n e',
                   run_lines (pca_projection solver) e = Raised exc n e'
  end.
Proof.
  destruct e as [d r0 c s fd sc fr x pc pd tc zc gc sr ru scr].
  cbn [rfm]. intros ->. unfold project, pca_projection, decor. step.
  destruct (StandardScaler_fit_transform (to_array r)) as [M|exc]; step;
    [|eauto].
  destruct (PCA_fit_transform solver M) as [coords|exc]; step; eauto.
Qed.

(** C10: two runs that differ only in the country and season chosen end the
    same way (normally, or with the same exception at the same line) and
    agree on the PCA projection, on the selected segment and its metrics and
    on the seasonal revenue, as variables and as rendered; the size breakdown
    is among the outputs that do change with the choice. *)
Theorem filter_choice_noninterference
    (solver : list vec3 -> vec3 * vec3) (w : World) (c s : nat) :
  raised (dashboard solver (with_filter w c s)) = raised (dashboard solver w) /\
  unfiltered_outputs (dashboard solver (with_filter w c s))
  = unfiltered_outputs (dashboard solver w) /\
  exists w' c' s',
    size_counts (final (dashboard solver (with_filter w' c' s')))
    <> size_counts (final (dashboard solver w')).
Proof.
  split; [|split].
  - destruct w as [ft fr fru cc sc kc].
    unfold_script. step.
    destruct ft as [txns|], fr as [customers|]; step; try reflexivity.
    split_calls; reflexivity.
  - destruct w as [ft fr fru cc sc kc]. unfold unfiltered_outputs.
    unfold_script. step.
    destruct ft as [txns|], fr as [customers|]; step; try reflexivity.
    split_calls; reflexivity.
  - exists fixture_world, 1%nat, 1%nat.
    destruct (fixture_size_counts solver) as [-> ->]. discriminate.
Qed.

(** ** The single recovery guard *)



(** ** The record table is only read *)

(** C8: the statements that compute the segment metrics (lines 54-60) and
    the projection (lines 63-69) leave the variable [rfm] as they found it,
    whether they run to their end or raise; over a whole run, [rfm] is never
    anything but the table as it was read from the file, and that table is
    what the download button offers at the end. *)
Theorem record_table_unchanged (solver : list vec3 -> vec3 * vec3) :
  (forall e, rfm (final (run_lines segment_metrics e)) = rfm e) /\
  (forall e, rfm (final (run_lines (pca_projection solver) e)) = rfm e) /\
  (forall w,
     rfm (final (dashboard solver w))
     = match clothing_retail_300_csv w with
       | Some _ => option_map RangeIndex (rfm_with_clusters_csv w)
       | None => None
       end) /\
  (forall w e, dashboard solver w = Normal e ->
     exists rows, rfm_with_clusters_csv w = Some rows /\
                  In (DownloadButton rows) (screen e)).
Proof.
  split; [|split; [|split]].
  - intros e. destruct e as [d r c s fd sc fr x pc pd tc zc gc sr ru scr].
    unfold segment_metrics, decor. step.
    destruct r, sc; reflexivity.
  - intros e. destruct e as [d r c s fd sc fr x pc pd tc zc gc sr ru scr].
    unfold pca_projection, decor. step.
    destruct r; step; [|reflexivity].
    split_calls; reflexivity.
  - intros w. destruct w as [ft fr fru cc sc kc].
    unfold_script. step.
    destruct ft as [txns|], fr as [customers|]; step; try reflexivity.
    split_calls; reflexivity.
  - intros w e. destruct w as [ft fr fru cc sc kc].
    unfold_script. step.
    destruct ft as [txns|], fr as [customers|]; step; try discriminate.
    split_calls; intros H; inversion H; subst; clear H;
      exists customers; (split; [reflexivity|]);
      cbn; rewrite (values_RangeIndex customers); find_event.
Qed.

(** * Further properties of the script *)

(** ** Distinct values, sorting and counting *)

Section Unique.

Variable A : Type.
Variable eqb : A -> A -> bool.
Hypothesis eqb_eq : forall x y, eqb x y = true <-> x = y.

Lemma In_unique (xs : list A) (a : A) : In a (unique eqb xs) <-> In a xs.
Proof.
  induction xs as [|x xs IH]; simpl; [tauto|].
  rewrite filter_In, IH. split.
  - intros [H|[H _]]; auto.
  - intros [H|H]; [now left|].
    destruct (eqb x a) eqn:E.
    + left. now apply eqb_eq.
    + right. split; [exact H|reflexivity].
Qed.

Lemma NoDup_unique (xs : list A) : NoDup (unique eqb xs).
Proof.
  induction xs as [|x xs IH]; simpl; constructor.
  - rewrite filter_In. intros [_ H].
    assert (eqb x x = true) as E by now apply eqb_eq.
    now rewrite E in H.
  - now apply NoDup_filter.
Qed.

End Unique.

Section InsertionSort.

Variable A : Type.
Variable leb : A -> A -> bool.

Lemma insert_sorted_perm (x : A) (l : list A) :
  Permutation (insert_sorted leb x l) (x :: l).
Proof.
  induction l as [|y l IH]; simpl; [reflexivity|].
  destruct (leb x y); [reflexivity|].
  rewrite IH. apply perm_swap.
Qed.

Lemma sorted_perm (xs : list A) : Permutation (sorted leb xs) xs.
Proof.
  induction xs as [|x xs IH]; simpl; [reflexivity|].
  fold (sorted leb xs). rewrite insert_sorted_perm. now constructor.
Qed.

Hypothesis leb_total : forall x y, leb x y = true \/ leb y x = true.
Hypothesis leb_trans : forall x y z, leb x y = true -> leb y z = true -> leb x z = true.

Lemma insert_sorted_sorted (x : A) (l : list A) :
  StronglySorted (fun a b => leb a b = true) l ->
  StronglySorted (fun a b => leb a b = true) (insert_sorted leb x l).
Proof.
  induction l as [|y l IH]; simpl; intros Hs.
  - constructor; constructor.
  - destruct (leb x y) eqn:E.
    + constructor; [exact Hs|].
      apply StronglySorted_inv in Hs. destruct Hs as [_ Hy].
      constructor; [exact E|].
      eapply Forall_impl; [|exact Hy]. intros z Hz. now apply (leb_trans x y z).
    + apply StronglySorted_inv in Hs. destruct Hs as [Hl Hy].
      constructor; [now apply IH|].
      assert (leb y x = true) as Hyx by (destruct (leb_total x y); congruence).
      eapply Permutation_Forall; [symmetry; apply insert_sorted_perm|].
      constructor; assumption.
Qed.

Lemma sorted_sorted (xs : list A) :
  StronglySorted (fun a b => leb a b = true) (sorted leb xs).
Proof.
  induction xs as [|x xs IH]; simpl; [constructor|].
  now apply insert_sorted_sorted.
Qed.

End InsertionSort.

Lemma lookup_In {A} (k : string) (v : A) (l : list (string * A)) :
  NoDup (map fst l) -> In (k, v) l -> lookup k l = Some v.
Proof.
  induction l as [|[k' v'] l IH]; simpl; intros ND Hin; [easy|].
  inversion ND as [|? ? Hnot ND']; subst.
  destruct Hin as [Heq|Hin].
  - inversion Heq; subst. now rewrite String.eqb_refl.
  - destruct (String.eqb_spec k k') as [->|_].
    + exfalso. apply Hnot. change k' with (fst (k', v)). now apply in_map.
    + now apply IH.
Qed.

Lemma lookup_not_In {A} (k : string) (l : list (string * A)) :
  ~ In k (map fst l) -> lookup k l = None.
Proof.
  induction l as [|[k' v'] l IH]; simpl; intros Hnot; [easy|].
  destruct (String.eqb_spec k k') as [->|_]; [exfalso; auto|].
  apply IH. auto.
Qed.

Lemma lookup_Some_In {A} (k : string) (v : A) (l : list (string * A)) :
  lookup k l = Some v -> In (k, v) l.
Proof.
  induction l as [|[k' v'] l IH]; simpl; [easy|].
  destruct (String.eqb_spec k k') as [->|_].
  - intros H; inversion H; now left.
  - intros H; right; now apply IH.
Qed.

Lemma list_sum_map_add {K} (f g : K -> nat) (ks : list K) :
  list_sum (map (fun k => (f k + g k)%nat) ks)
  = (list_sum (map f ks) + list_sum (map g ks))%nat.
Proof. induction ks as [|k ks IH]; simpl; lia. Qed.

Section Counting.

Variables K A : Type.
Variable key : A -> K.
Variable keqb : K -> K -> bool.
Hypothesis keqb_eq : forall a b, keqb a b = true <-> a = b.

Lemma indicator_zero (ks : list K) (a : K) :
  ~ In a ks ->
  list_sum (map (fun k => if keqb a k then 1 else 0)%nat ks) = 0%nat.
Proof.
  induction ks as [|k ks IH]; simpl; intros Hnot; [reflexivity|].
  destruct (keqb a k) eqn:E.
  - apply keqb_eq in E. subst. exfalso. apply Hnot. now left.
  - apply IH. intros H. apply Hnot. now right.
Qed.

Lemma indicator_sum (ks : list K) (a : K) :
  NoDup ks -> In a ks ->
  list_sum (map (fun k => if keqb a k then 1 else 0)%nat ks) = 1%nat.
Proof.
  induction ks as [|k ks IH]; simpl; intros ND Hin; [easy|].
  inversion ND as [|? ? Hnot ND']; subst.
  destruct (keqb a k) eqn:E.
  - apply keqb_eq in E. subst k. now rewrite indicator_zero.
  - destruct Hin as [->|Hin].
    + assert (keqb a a = true) as E' by now apply keqb_eq. congruence.
    + now apply IH.
Qed.

(** Rows grouped by key: when the keys are distinct and every row's key is
    among them, the group sizes add up to the number of rows. *)
Lemma count_partition (ks : list K) (xs : list A) :
  NoDup ks -> (forall x, In x xs -> In (key x) ks) ->
  list_sum (map (fun k => length (filter (fun x => keqb (key x) k) xs)) ks)
  = length xs.
Proof.
  intros ND. induction xs as [|x xs IH]; intros Hcov.
  - clear ND Hcov. simpl. induction ks as [|k ks IH]; simpl; auto.
  - rewrite (map_ext _ (fun k => ((if keqb (key x) k then 1 else 0)
                                  + length (filter (fun x => keqb (key x) k) xs))%nat)).
    + rewrite list_sum_map_add, indicator_sum, IH.
      * reflexivity.
      * intros y Hy. apply Hcov. now right.
      * exact ND.
      * apply Hcov. now left.
    + intros k. simpl. destruct (keqb (key x) k); reflexivity.
Qed.

End Counting.

Lemma StronglySorted_app_inv {A} (R : A -> A -> Prop) (l1 l2 : list A) :
  StronglySorted R (l1 ++ l2) ->
  forall a b, In a l1 -> In b l2 -> R a b.
Proof.
  induction l1 as [|x l1 IH]; simpl; intros Hs a b Ha Hb; [easy|].
  apply StronglySorted_inv in Hs. destruct Hs as [Hs Hx].
  destruct Ha as [->|Ha].
  - rewrite Forall_forall in Hx. apply Hx. apply in_or_app. now right.
  - now apply IH.
Qed.

Lemma StronglySorted_impl {A} (R R' : A -> A -> Prop) (l : list A) :
  (forall a b, R a b -> R' a b) -> StronglySorted R l -> StronglySorted R' l.
Proof.
  intros Himp. induction 1 as [|a l Hs IH Ha]; constructor; [exact IH|].
  eapply Forall_impl; [|exact Ha]. intros b. apply Himp.
Qed.

Lemma Zeqb_eq (x y : Z) : Z.eqb x y = true <-> x = y.
Proof. apply Z.eqb_eq. Qed.

Lemma Zleb_total (x y : Z) : Z.leb x y = true \/ Z.leb y x = true.
Proof. rewrite !Z.leb_le. lia. Qed.

Lemma Zleb_trans (x y z : Z) :
  Z.leb x y = true -> Z.leb y z = true -> Z.leb x z = true.
Proof. rewrite !Z.leb_le. lia. Qed.

Lemma labels_RangeIndex (records : list Customer) :
  values (getcol Cluster (RangeIndex records)) = map Cluster records.
Proof. now rewrite values_getcol, values_RangeIndex. Qed.

(** X2: the options of the cluster select box (line 53) are the labels
    that occur in the RFM table, each once, in increasing order; with a
    non-empty table the box has a default, and the default is the smallest
    label of the table. *)
Theorem cluster_options_are_the_labels (records : list Customer) :
  let options :=
    sorted Z.leb (unique Z.eqb (values (getcol Cluster (RangeIndex records)))) in
  NoDup options /\
  (forall c, In c options <-> In c (map Cluster records)) /\
  StronglySorted Z.le options /\
  (records <> [] -> exists c, selectbox options 0 = Some c) /\
  (forall c r, selectbox options 0 = Some c -> In r records ->
               (c <= Cluster r)%Z).
Proof.
  intros options. unfold options. rewrite labels_RangeIndex.
  set (labels := map Cluster records).
  set (opts := sorted Z.leb (unique Z.eqb labels)).
  pose proof (sorted_perm Z Z.leb (unique Z.eqb labels)) as Hperm.
  fold opts in Hperm.
  assert (forall c, In c opts <-> In c labels) as Hin.
  { intros c. rewrite <- (In_unique Z Z.eqb Zeqb_eq labels c).
    split; apply Permutation_in; [exact Hperm|now symmetry]. }
  assert (StronglySorted Z.le opts) as Hs.
  { apply (StronglySorted_impl (fun a b => Z.leb a b = true)).
    - intros a b. apply Z.leb_le.
    - apply (sorted_sorted Z Z.leb Zleb_total Zleb_trans). }
  split; [|split; [exact Hin|split; [exact Hs|split]]].
  - eapply Permutation_NoDup; [symmetry; exact Hperm|].
    apply (NoDup_unique Z Z.eqb Zeqb_eq).
  - intros Hne. destruct records as [|r records]; [easy|].
    assert (In (Cluster r) opts) as H by (apply Hin; now left).
    unfold selectbox. destruct opts as [|c opts']; [easy|]. now exists c.
  - intros c r Hsel Hr. unfold selectbox in Hsel.
    destruct opts as [|c0 opts'] eqn:E; [discriminate|].
    simpl in Hsel. inversion Hsel; subst c0.
    assert (In (Cluster r) (c :: opts')) as H
      by (apply Hin; unfold labels; now apply in_map).
    apply StronglySorted_inv in Hs. destruct Hs as [_ Hc].
    destruct H as [<-|H]; [lia|].
    rewrite Forall_forall in Hc. now apply Hc.
Qed.

Lemma count_summarize (records : list Customer) (c : Z) :
  count (summarize (RangeIndex records) (Some c))
  = length (filter (fun r => Z.eqb (Cluster r) c) records).
Proof.
  unfold summarize. cbn [count].
  rewrite <- (length_values (filter_rfm _ _)), values_filter_rfm. reflexivity.
Qed.

(** X4: the segments offered by the select box partition the customers: the
    counts of the segments, added over all options, give the number of rows
    of the RFM table. *)
Theorem segments_partition_customers (records : list Customer) :
  list_sum
    (map (fun c => count (summarize (RangeIndex records) (Some c)))
         (sorted Z.leb
            (unique Z.eqb (values (getcol Cluster (RangeIndex records))))))
  = length records.
Proof.
  rewrite (map_ext _ _ (count_summarize records)).
  rewrite labels_RangeIndex.
  apply (count_partition Z Customer Cluster Z.eqb Zeqb_eq).
  - eapply Permutation_NoDup; [symmetry; apply sorted_perm|].
    apply (NoDup_unique Z Z.eqb Zeqb_eq).
  - intros r Hr.
    eapply Permutation_in; [symmetry; apply sorted_perm|].
    apply (In_unique Z Z.eqb Zeqb_eq). now apply in_map.
Qed.



(** *** [value_counts] *)

Lemma String_eqb_eq (x y : string) : String.eqb x y = true <-> x = y.
Proof. apply String.eqb_eq. Qed.

Lemma String_eqb_flip_eq (x y : string) : String.eqb y x = true <-> x = y.
Proof. rewrite String.eqb_eq. split; congruence. Qed.

Lemma value_counts_perm (xs : list string) :
  Permutation (value_counts xs)
              (map (fun x => (x, length (filter (String.eqb x) xs)))
                   (unique String.eqb xs)).
Proof. apply sorted_perm. Qed.

Lemma value_counts_keys (xs : list string) :
  Permutation (map fst (value_counts xs)) (unique String.eqb xs).
Proof.
  rewrite (Permutation_map fst (value_counts_perm xs)), map_map. simpl.
  now rewrite map_id.
Qed.

Lemma NoDup_value_counts (xs : list string) : NoDup (map fst (value_counts xs)).
Proof.
  eapply Permutation_NoDup; [symmetry; apply value_counts_keys|].
  apply (NoDup_unique string String.eqb String_eqb_eq).
Qed.

Lemma In_value_counts (xs : list string) (k : string) (n : nat) :
  In (k, n) (value_counts xs)
  <-> In k xs /\ n = length (filter (String.eqb k) xs).
Proof.
  split.
  - intros H. apply (Permutation_in _ (value_counts_perm xs)) in H.
    apply in_map_iff in H. destruct H as [x [Hx Hin]]. inversion Hx; subst.
    split; [|reflexivity].
    exact (proj1 (In_unique string String.eqb String_eqb_eq xs _) Hin).
  - intros [Hin ->].
    apply (Permutation_in _ (Permutation_sym (value_counts_perm xs))).
    apply in_map_iff. exists k. split; [reflexivity|].
    exact (proj2 (In_unique string String.eqb String_eqb_eq xs _) Hin).
Qed.

Lemma existsb_eqb_In (k : string) (xs : list string) :
  existsb (String.eqb k) xs = true <-> In k xs.
Proof.
  rewrite existsb_exists. split.
  - intros [x [Hx E]]. apply String.eqb_eq in E. now subst.
  - intros H. exists k. split; [exact H|apply String.eqb_refl].
Qed.

Lemma lookup_value_counts (xs : list string) (k : string) :
  lookup k (value_counts xs)
  = if existsb (String.eqb k) xs
    then Some (length (filter (String.eqb k) xs))
    else None.
Proof.
  destruct (existsb (String.eqb k) xs) eqn:E.
  - apply existsb_eqb_In in E.
    apply lookup_In; [apply NoDup_value_counts|].
    now apply In_value_counts.
  - apply lookup_not_In. intros H.
    apply (Permutation_in _ (value_counts_keys xs)) in H.
    apply (proj1 (In_unique string String.eqb String_eqb_eq xs k)) in H.
    apply existsb_eqb_In in H. congruence.
Qed.

Lemma filter_nonempty_length {A} (p : A -> bool) (xs : list A) (x : A) :
  In x xs -> p x = true -> (0 < length (filter p xs))%nat.
Proof.
  intros Hin Hp. assert (In x (filter p xs)) as H by now apply filter_In.
  destruct (filter p xs); [easy|simpl; lia].
Qed.

Lemma value_counts_descending (xs : list string) :
  StronglySorted (fun a b => (snd b <= snd a)%nat) (value_counts xs).
Proof.
  apply (StronglySorted_impl (fun a b => (snd b <=? snd a)%nat = true)).
  - intros a b. apply Nat.leb_le.
  - apply (sorted_sorted (string * nat)
             (fun a b => (snd b <=? snd a)%nat)).
    + intros a b. rewrite !Nat.leb_le. lia.
    + intros a b c. rewrite !Nat.leb_le. lia.
Qed.

Lemma list_sum_perm (l l' : list nat) :
  Permutation l l' -> list_sum l = list_sum l'.
Proof. induction 1; simpl; lia. Qed.

Lemma value_counts_total (xs : list string) :
  list_sum (map snd (value_counts xs)) = length xs.
Proof.
  rewrite (list_sum_perm _ _ (Permutation_map snd (value_counts_perm xs))).
  rewrite map_map. simpl.
  apply (count_partition string string (fun x => x)
           (fun a b => String.eqb b a) String_eqb_flip_eq).
  - apply (NoDup_unique string String.eqb String_eqb_eq).
  - intros x Hx. now apply (In_unique string String.eqb String_eqb_eq).
Qed.

(** X14: when the gender cells of the filtered transactions are cells that
    [pd.read_csv] keeps as text, the gender chart (line 89) lists each gender
    of the filtered transactions once, with its positive number of rows, and
    the counts add up to the number of filtered transactions. *)
Theorem gender_counts_cover_filtered_rows (filtered_df : Frame Txn) :
  Forall (fun t => reads_as_text (Gender t) = true) (values filtered_df) ->
  let genders := values (getcol Gender filtered_df) in
  let gender_counts := value_counts genders in
  list_sum (map snd gender_counts) = length filtered_df /\
  NoDup (map fst gender_counts) /\
  forall g n, In (g, n) gender_counts
              <-> In g genders /\ n = length (filter (String.eqb g) genders)
                  /\ (0 < n)%nat.
Proof.
  intros _ genders gender_counts. unfold gender_counts.
  split; [|split].
  - rewrite value_counts_total. unfold genders.
    rewrite length_values. unfold getcol. apply length_map.
  - apply NoDup_value_counts.
  - intros g n. rewrite In_value_counts. split.
    + intros [Hin ->]. repeat split; [exact Hin|].
      apply (filter_nonempty_length _ _ g Hin), String.eqb_refl.
    + intros (Hin & -> & _). now split.
Qed.

Lemma gender_counts_cover_filtered_rows_witness :
  value_counts (values (getcol Gender (RangeIndex fixture_txns)))
  = [("F"%string, 2%nat)] /\
  list_sum (map snd (value_counts
                       (values (getcol Gender (RangeIndex fixture_txns)))))
  = length (RangeIndex fixture_txns).
Proof.
  split; [reflexivity|].
  apply (gender_counts_cover_filtered_rows (RangeIndex fixture_txns)).
  repeat constructor.
Defined.

(** X12: when the category cells of the filtered transactions are cells
    that [pd.read_csv] keeps as text, the bar chart of categories (line 79)
    shows at most five distinct categories of the filtered transactions, each
    with its number of rows, in decreasing order of count, and no category
    left out has more rows than one that is shown. *)
Theorem top_categories_are_the_most_frequent (filtered_df : Frame Txn) :
  Forall (fun t => reads_as_text (Category t) = true) (values filtered_df) ->
  let categories := values (getcol Category filtered_df) in
  let top_categories := firstn 5 (value_counts categories) in
  (length top_categories <= 5)%nat /\
  NoDup (map fst top_categories) /\
  StronglySorted (fun a b => (snd b <= snd a)%nat) top_categories /\
  (forall k n, In (k, n) top_categories ->
     In k categories /\ n = length (filter (String.eqb k) categories)) /\
  (forall k n k', In (k, n) top_categories -> In k' categories ->
     ~ In k' (map fst top_categories) ->
     (length (filter (String.eqb k') categories) <= n)%nat).
Proof.
  intros _ categories top. unfold top.
  set (vc := value_counts categories).
  pose proof (firstn_skipn 5 vc) as Hsplit.
  pose proof (value_counts_descending categories) as Hdesc. fold vc in Hdesc.
  pose proof (NoDup_value_counts categories) as Hnd. fold vc in Hnd.
  split; [apply firstn_le_length|].
  split.
  { rewrite <- Hsplit, map_app in Hnd. now apply NoDup_app_remove_r in Hnd. }
  split.
  { rewrite <- Hsplit in Hdesc. clear -Hdesc.
    induction (firstn 5 vc) as [|a l IH]; simpl in *; [constructor|].
    apply StronglySorted_inv in Hdesc. destruct Hdesc as [Hl Ha].
    constructor; [now apply IH|].
    apply Forall_forall. intros b Hb. rewrite Forall_forall in Ha.
    apply Ha. apply in_or_app. now left. }
  split.
  { intros k n Hin. apply (In_value_counts categories k n).
    fold vc. rewrite <- Hsplit. apply in_or_app. now left. }
  intros k n k' Hin Hk' Hnot.
  assert (In (k', length (filter (String.eqb k') categories)) vc) as Hvc
    by (apply In_value_counts; now split).
  rewrite <- Hsplit in Hvc. apply in_app_or in Hvc. destruct Hvc as [H|H].
  - exfalso. apply Hnot.
    change k' with (fst (k', length (filter (String.eqb k') categories))).
    now apply in_map.
  - rewrite <- Hsplit in Hdesc.
    exact (StronglySorted_app_inv _ _ _ Hdesc _ _ Hin H).
Qed.

Lemma top_categories_are_the_most_frequent_witness :
  firstn 5 (value_counts (values (getcol Category (RangeIndex fixture_txns))))
  = [("Coats"%string, 1%nat); ("Dresses"%string, 1%nat)] /\
  NoDup (map fst (firstn 5 (value_counts
                   (values (getcol Category (RangeIndex fixture_txns)))))).
Proof.
  split; [reflexivity|].
  apply (top_categories_are_the_most_frequent (RangeIndex fixture_txns)).
  repeat constructor.
Defined.

(** X13: the size curve (line 84) has exactly the entries XS, S, M, L, XL in
    that order, each with the number of filtered transactions of that size,
    or NaN when there is none; any other size is dropped. *)
Theorem size_counts_on_the_five_sizes (filtered_df : Frame Txn) :
  let sizes := values (getcol Size filtered_df) in
  reindex (value_counts sizes) ["XS"; "S"; "M"; "L"; "XL"]%string
  = map (fun k => (k, if existsb (String.eqb k) sizes
                      then Some (length (filter (String.eqb k) sizes))
                      else None))
        ["XS"; "S"; "M"; "L"; "XL"]%string.
Proof.
  intros sizes. unfold reindex. apply map_ext.
  intros k. now rewrite lookup_value_counts.
Qed.

(** *** The sidebar filter *)

Lemma In_loc {A} (f : Frame A) (i : nat) (r : A) :
  NoDup (index f) -> In (i, r) f -> loc f i = Some r.
Proof.
  unfold index. induction f as [|[j x] f IH]; simpl; intros ND Hin; [easy|].
  inversion ND as [|? ? Hnot ND']; subst.
  destruct Hin as [Heq|Hin].
  - inversion Heq; subst. now rewrite Nat.eqb_refl.
  - destruct (Nat.eqb_spec i j) as [->|_].
    + exfalso. apply Hnot. change j with (fst (j, r)). now apply in_map.
    + now apply IH.
Qed.

Lemma and_mask_rowwise {A} (p q : A -> bool) (f : Frame A) :
  NoDup (index f) ->
  and_mask (map (fun ir => (fst ir, p (snd ir))) f)
           (map (fun ir => (fst ir, q (snd ir))) f)
  = map (fun ir => (fst ir, p (snd ir) && q (snd ir))) f.
Proof.
  intros ND. unfold and_mask. rewrite map_map. apply map_ext_in.
  intros [i r] Hin. simpl. now rewrite (loc_rowwise q f i r ND Hin).
Qed.

Lemma filter_df_rows (d : Frame Txn) (country season : option string) :
  NoDup (index d) ->
  filter_df d country season
  = filter (fun ir => match country, season with
                      | Some c, Some s => String.eqb (Country (snd ir)) c
                                          && String.eqb (Season (snd ir)) s
                      | _, _ => false
                      end) d.
Proof.
  intros ND.
  set (p := fun t => match country with
                     | Some c => String.eqb (Country t) c
                     | None => false
                     end).
  set (q := fun t => match season with
                     | Some s => String.eqb (Season t) s
                     | None => false
                     end).
  assert (eq_mask String.eqb (getcol Country d) country
          = map (fun ir => (fst ir, p (snd ir))) d) as Ep
    by (unfold eq_mask, getcol; rewrite map_map; reflexivity).
  assert (eq_mask String.eqb (getcol Season d) season
          = map (fun ir => (fst ir, q (snd ir))) d) as Eq
    by (unfold eq_mask, getcol; rewrite map_map; reflexivity).
  unfold filter_df. rewrite Ep, Eq, (and_mask_rowwise p q d ND).
  etransitivity; [exact (getitem_mask_rowwise (fun t => p t && q t) d ND)|].
  apply filter_ext. intros [i t]. unfold p, q. simpl.
  destruct country, season; try reflexivity.
  now rewrite andb_false_r.
Qed.

(** X1: when the selected country and season are cells that [pd.read_csv]
    keeps as text, the filtered transactions (line 48) are exactly the
    transactions whose country and season both equal the selected ones, in
    file order, each under the row number it has in the file; with nothing
    selected, which a select box answers on an empty table, no row is
    kept. *)
Theorem filtered_df_keeps_matching_rows
    (txns : list Txn) (country season : option string) :
  (forall c, country = Some c -> reads_as_text c = true) ->
  (forall s, season = Some s -> reads_as_text s = true) ->
  let filtered_df := filter_df (RangeIndex txns) country season in
  values filtered_df
  = filter (fun t => match country, season with
                     | Some c, Some s =>
                         String.eqb (Country t) c && String.eqb (Season t) s
                     | _, _ => false
                     end) txns /\
  forall i t, In (i, t) filtered_df -> nth_error txns i = Some t.
Proof.
  intros _ _ fd. unfold fd.
  rewrite filter_df_rows by apply NoDup_index_RangeIndex. split.
  - etransitivity; [|rewrite <- (values_RangeIndex txns) at 1; reflexivity].
    exact (values_filter
             (fun t => match country, season with
                       | Some c, Some s =>
                           String.eqb (Country t) c && String.eqb (Season t) s
                       | _, _ => false
                       end) (RangeIndex txns)).
  - intros i t Hin. apply filter_In in Hin. destruct Hin as [Hin _].
    rewrite <- loc_RangeIndex. apply In_loc; [apply NoDup_index_RangeIndex|].
    exact Hin.
Qed.

Lemma filtered_df_keeps_matching_rows_witness :
  values (filter_df (RangeIndex fixture_txns)
            (Some "France"%string) (Some "Summer"%string))
  = [mkTxn "France" "Summer" "Dresses" "M" "F" 80].
Proof.
  destruct (filtered_df_keeps_matching_rows fixture_txns
              (Some "France"%string) (Some "Summer"%string)) as [H _].
  - intros c Hc. inversion Hc. reflexivity.
  - intros s Hs. inversion Hs. reflexivity.
  - rewrite H. reflexivity.
Defined.

(** *** Seasonal revenue *)





Lemma sum_app (xs ys : list R) : sum (xs ++ ys) = sum xs + sum ys.
Proof. induction xs as [|x xs IH]; simpl; [ring|rewrite IH; ring]. Qed.






Lemma In_RangeIndex {A} (xs : list A) (i : nat) (x : A) :
  In (i, x) (RangeIndex xs) <-> nth_error xs i = Some x.
Proof.
  split.
  - intros Hin. rewrite <- loc_RangeIndex.
    apply In_loc; [apply NoDup_index_RangeIndex|exact Hin].
  - intros Hn. unfold RangeIndex.
    pose proof (nth_error_combine_seq xs 0 i x Hn) as H.
    now apply nth_error_In in H.
Qed.

(** X5: a row is in the segment table (line 54) under a row number exactly
    when the RFM file has that row at that number and the row's label is the
    selected one: boolean indexing keeps the original index. *)
Theorem segment_table_keeps_row_numbers
    (records : list Customer) (selected : option Z) (i : nat) (r : Customer) :
  In (i, r) (filter_rfm (RangeIndex records) selected)
  <-> nth_error records i = Some r /\ selected = Some (Cluster r).
Proof.
  set (p := fun r => match selected with
                     | Some c => Z.eqb (Cluster r) c
                     | None => false
                     end).
  assert (filter_rfm (RangeIndex records) selected
          = filter (fun ir => p (snd ir)) (RangeIndex records)) as ->.
  { unfold filter_rfm.
    assert (eq_mask Z.eqb (getcol Cluster (RangeIndex records)) selected
            = map (fun ir => (fst ir, p (snd ir))) (RangeIndex records)) as ->
      by (unfold eq_mask, getcol; rewrite map_map; reflexivity).
    apply getitem_mask_rowwise, NoDup_index_RangeIndex. }
  rewrite filter_In, In_RangeIndex. unfold p. simpl.
  destruct selected as [c|].
  - rewrite Z.eqb_eq. split; intros [H1 H2]; (split; [exact H1|congruence]).
  - split; intros [_ H]; discriminate.
Qed.


(** *** What standardization achieves *)




















(** *** Variance shown by the two axes *)








(** *** A change of unit *)






Lemma feature_of_rescale (j k : feature) (a b : R) (r : Customer) :
  feature_of k (rescale j a b r)
  = match j, k with
    | FRecency, FRecency | FFrequency, FFrequency | FMonetary, FMonetary =>
        a * feature_of k r + b
    | _, _ => feature_of k r
    end.
Proof. destruct j, k; reflexivity. Qed.








Local Open Scope string_scope.

(** *** Stripping *)

Lemma lstrip_split (chars s : string) :
  exists p, s = p ++ lstrip chars s /\ all_in chars p = true.
Proof.
  induction s as [|c s IH]; simpl.
  - now exists "".
  - destruct (mem_char c chars) eqn:E.
    + destruct IH as [p [Hs Hp]]. exists (String c p). simpl.
      rewrite E, Hp. split; [now f_equal|reflexivity].
    + now exists "".
Qed.

Lemma lstrip_starts (chars s : string) :
  starts_in chars (lstrip chars s) = false.
Proof.
  induction s as [|c s IH]; simpl; [reflexivity|].
  destruct (mem_char c chars) eqn:E; [exact IH|]. simpl. exact E.
Qed.

Lemma lstrip_fixed (chars s : string) :
  starts_in chars s = false -> lstrip chars s = s.
Proof. destruct s as [|c s]; simpl; [reflexivity|]. now intros ->. Qed.

Lemma rstrip_split (chars s : string) :
  exists q, s = rstrip chars s ++ q /\ all_in chars q = true.
Proof.
  induction s as [|c s IH]; simpl.
  - now exists "".
  - destruct IH as [q [Hs Hq]].
    destruct (rstrip chars s) as [|b t] eqn:E.
    + destruct (mem_char c chars) eqn:Ec.
      * exists (String c q). simpl. rewrite Ec, Hq. simpl in Hs.
        split; [now f_equal|reflexivity].
      * exists q. simpl in *. split; [now f_equal|exact Hq].
    + exists q. split; [|exact Hq]. simpl. now f_equal.
Qed.

Lemma rstrip_ends (chars s : string) :
  ends_in chars (rstrip chars s) = false.
Proof.
  induction s as [|c s IH]; simpl; [reflexivity|].
  destruct (rstrip chars s) as [|b t] eqn:E.
  - destruct (mem_char c chars) eqn:Ec; simpl; [reflexivity|exact Ec].
  - simpl in *. exact IH.
Qed.

Lemma rstrip_fixed (chars s : string) :
  ends_in chars s = false -> rstrip chars s = s.
Proof.
  induction s as [|c s IH]; simpl; [reflexivity|].
  destruct s as [|b t].
  - simpl. now intros ->.
  - intros H. rewrite (IH H). reflexivity.
Qed.

Lemma rstrip_starts (chars s : string) :
  starts_in chars s = false -> starts_in chars (rstrip chars s) = false.
Proof.
  destruct s as [|c s]; simpl; [reflexivity|]. intros Hc.
  destruct (rstrip chars s); [|exact Hc].
  now rewrite Hc.
Qed.

(** X17: [str.strip] removes a prefix and a suffix made only of the given
    characters; what is left neither starts nor ends with one of them, and
    stripping it again changes nothing. *)
Theorem str_strip_trims_both_ends (chars s : string) :
  (exists p q, s = p ++ str_strip chars s ++ q /\
               all_in chars p = true /\ all_in chars q = true) /\
  starts_in chars (str_strip chars s) = false /\
  ends_in chars (str_strip chars s) = false /\
  str_strip chars (str_strip chars s) = str_strip chars s.
Proof.
  unfold str_strip.
  destruct (lstrip_split chars s) as [p [Hp Hpin]].
  destruct (rstrip_split chars (lstrip chars s)) as [q [Hq Hqin]].
  pose proof (rstrip_starts chars _ (lstrip_starts chars s)) as Hst.
  pose proof (rstrip_ends chars (lstrip chars s)) as Hen.
  split; [|split; [exact Hst|split; [exact Hen|]]].
  - exists p, q. split; [|now split]. now rewrite <- Hq.
  - rewrite (lstrip_fixed _ _ Hst). now apply rstrip_fixed.
Qed.

(** *** Replacing *)

Lemma occurs_head (pat : string) (c : ascii) (s : string) :
  occurs pat (String c s) = false ->
  String.prefix pat (String c s) = false /\ occurs pat s = false.
Proof. simpl. now intros H%orb_false_iff. Qed.

Lemma str_replace_no_occurrence (pat repl s : string) :
  occurs pat s = false -> str_replace pat repl s = s.
Proof.
  unfold str_replace. induction s as [|c s IH]; [reflexivity|].
  intros H. apply occurs_head in H. destruct H as [Hp Ho].
  cbn [str_replace_from]. rewrite Hp, (IH Ho). reflexivity.
Qed.

Lemma mem_char_app (c : ascii) (p q : string) :
  mem_char c (p ++ String c q) = true.
Proof.
  induction p as [|d p IH]; simpl.
  - now rewrite Ascii.eqb_refl.
  - destruct (Ascii.eqb c d); [reflexivity|exact IH].
Qed.

(** A match of [pat] at the head of [t ++ u] either lies within [t] or
    continues into [u] with a character of [pat]. *)
Lemma prefix_app (pat t : string) (c : ascii) (u : string) :
  String.prefix pat (t ++ String c u) = true ->
  String.prefix pat t = true \/ mem_char c pat = true.
Proof.
  revert t. induction pat as [|a pat IH]; intros t H;
    [left; now destruct t|].
  destruct t as [|b t].
  - right. simpl in H. destruct (ascii_dec a c) as [->|Hne]; [|discriminate].
    simpl. now rewrite Ascii.eqb_refl.
  - simpl in H. simpl. destruct (ascii_dec a b) as [->|Hne]; [|discriminate].
    destruct (IH t H) as [Hl|Hr]; [now left|].
    right. simpl. destruct (Ascii.eqb c b); [reflexivity|exact Hr].
Qed.

Lemma occurs_app_closing (pat body : string) (c d : ascii) :
  pat <> "" ->
  mem_char c pat = false -> mem_char d pat = false ->
  occurs pat body = false ->
  occurs pat (body ++ String c (String d "")) = false.
Proof.
  intros Hpat Hc Hd. induction body as [|b body IH]; intros H.
  - destruct pat as [|a pat]; [easy|]. simpl in *.
    destruct (ascii_dec a c) as [->|_].
    + rewrite Ascii.eqb_refl in Hc. discriminate.
    + destruct (ascii_dec a d) as [->|_]; [|reflexivity].
      rewrite Ascii.eqb_refl in Hd. discriminate.
  - apply occurs_head in H. destruct H as [Hp Ho].
    change ((String b body) ++ String c (String d ""))
      with (String b (body ++ String c (String d ""))).
    cbn [occurs]. rewrite (IH Ho), orb_false_r.
    destruct (String.prefix pat (String b (body ++ String c (String d ""))))
      eqn:E; [|reflexivity].
    change (String b (body ++ String c (String d "")))
      with ((String b body) ++ String c (String d "")) in E.
    apply prefix_app in E. destruct E as [E|E]; congruence.
Qed.

Lemma rstrip_app_all (chars t q : string) :
  all_in chars q = true -> ends_in chars t = false ->
  rstrip chars (t ++ q) = t.
Proof.
  intros Hq. induction t as [|c t IH]; intros Ht.
  - simpl. clear Ht. induction q as [|d q IHq]; [reflexivity|].
    simpl in *. apply andb_true_iff in Hq. destruct Hq as [Hd Hq].
    rewrite (IHq Hq), Hd. reflexivity.
  - change ((String c t) ++ q) with (String c (t ++ q)). cbn [rstrip].
    destruct t as [|b t].
    + simpl in Ht. simpl.
      assert (rstrip chars q = "") as ->.
      { clear -Hq. induction q as [|d q IHq]; [reflexivity|].
        simpl in *. apply andb_true_iff in Hq. destruct Hq as [Hd Hq].
        rewrite (IHq Hq), Hd. reflexivity. }
      now rewrite Ht.
    + rewrite IH by exact Ht. reflexivity.
Qed.

(** X18: the clean-up of lines 101-102 turns the text [frozenset({body})]
    back into [body], provided [body] does not contain the word frozenset and
    neither starts nor ends with a bracket or a brace. *)
Theorem frozenset_literal_is_unwrapped (body : string) :
  occurs "frozenset" body = false ->
  starts_in "(){}" body = false ->
  ends_in "(){}" body = false ->
  str_strip "(){}" (str_replace "frozenset" "" ("frozenset({" ++ body ++ "})"))
  = body.
Proof.
  intros Hocc Hst Hen.
  assert (str_replace "frozenset" "" ("frozenset({" ++ body ++ "})")
          = "({" ++ body ++ "})") as ->.
  { unfold str_replace. cbn.
    f_equal. f_equal.
    apply (str_replace_no_occurrence "frozenset" "" (body ++ "})")).
    apply occurs_app_closing; try reflexivity; [discriminate|exact Hocc]. }
  unfold str_strip. cbn [append lstrip mem_char Ascii.eqb Bool.eqb].
  destruct body as [|c body].
  - reflexivity.
  - cbn [starts_in] in Hst.
    change ((String c body) ++ "})") with (String c (body ++ "})")).
    cbn [lstrip]. rewrite Hst.
    change (String c (body ++ "})")) with ((String c body) ++ "})").
    apply rstrip_app_all; [reflexivity|exact Hen].
Qed.

Lemma frozenset_literal_is_unwrapped_witness :
  str_strip "(){}"
    (str_replace "frozenset" "" ("frozenset({" ++ "'Coats', 'Hats'" ++ "})"))
  = "'Coats', 'Hats'".
Proof.
  apply (frozenset_literal_is_unwrapped "'Coats', 'Hats'"); reflexivity.
Defined.

Local Close Scope string_scope.

(** *** The rules table *)

Lemma lookup_setitem_same (t : Table) (c : string) (cells : list string) :
  lookup c (Table_setitem t c cells) = Some cells.
Proof.
  induction t as [|[k v] t IH]; simpl.
  - now rewrite String.eqb_refl.
  - destruct (String.eqb c k) eqn:E; simpl; rewrite E; [reflexivity|exact IH].
Qed.

Lemma lookup_setitem_other (t : Table) (n c : string) (cells : list string) :
  n <> c -> lookup n (Table_setitem t c cells) = lookup n t.
Proof.
  intros Hne. induction t as [|[k v] t IH]; simpl.
  - destruct (String.eqb_spec n c); [contradiction|reflexivity].
  - destruct (String.eqb_spec c k) as [->|Hck]; simpl.
    + destruct (String.eqb_spec n k); [contradiction|reflexivity].
    + destruct (String.eqb n k); [reflexivity|exact IH].
Qed.

Lemma keys_setitem (t : Table) (c : string) (cells : list string) :
  lookup c t <> None -> map fst (Table_setitem t c cells) = map fst t.
Proof.
  induction t as [|[k v] t IH]; simpl; [easy|].
  destruct (String.eqb c k) eqn:E; simpl; [reflexivity|].
  intros H. now rewrite IH.
Qed.

(** X19: cleaning a column (lines 101, 102) raises KeyError when the table
    lacks it; when the column is there and its cells are cells that
    [pd.read_csv] keeps as text, it rewrites every cell of that column and
    leaves the other columns and the order of the columns as they were. *)
Theorem clean_column_rewrites_one_column (t : Table) (c : string) :
  match lookup c t with
  | None => clean_column t c = Raise "KeyError"
  | Some cells =>
      Forall (fun x => reads_as_text x = true) cells ->
      exists t', clean_column t c = Ok t' /\
        map fst t' = map fst t /\
        lookup c t'
        = Some (map (fun x => str_strip "(){}" (str_replace "frozenset" "" x))
                    cells) /\
        forall n, n <> c -> lookup n t' = lookup n t
  end.
Proof.
  unfold clean_column, Table_getitem.
  destruct (lookup c t) as [cells|] eqn:E; [|reflexivity].
  intros _. eexists. split; [reflexivity|]. split; [|split].
  - apply keys_setitem. congruence.
  - apply lookup_setitem_same.
  - intros n Hn. now apply lookup_setitem_other.
Qed.

Ltac rules_lookups :=
  repeat first
    [ rewrite lookup_setitem_same
    | rewrite lookup_setitem_other by discriminate ].

Lemma rules_block_outcome (w : World) (e : Env) :
  raised (exec (association_rules w) e) = rules_block_raises (rules_sorted_csv w)
  /\ rfm (final (exec (association_rules w) e)) = rfm e.
Proof.
  destruct e as [d r c s fd sc fr x pc pd tc zc gc sr ru scr].
  unfold association_rules, rules_block_raises, has_column. step.
  destruct (rules_sorted_csv w) as [t|]; step.
  2:{ rewrite String.eqb_refl. step. now split. }
  unfold clean_column, Table_getitem.
  destruct (lookup "antecedents" t) as [a|] eqn:Ea; step; [|now split].
  rules_lookups.
  destruct (lookup "consequents" t) as [cq|] eqn:Ec; step; [|now split].
  cbn [Table_select]. unfold Table_getitem. rules_lookups.
  step.
  destruct (lookup "support" t) as [su|]; step; [|now split].
  destruct (lookup "confidence" t) as [cf|]; step; [|now split].
  destruct (lookup "lift" t) as [li|]; step; now split.
Qed.

(** X21: for an RFM file of customer rows of ordinary size and a rules
    file that, when present, has a header and text in the two columns that
    are cleaned, whether a run of the page ends with an uncaught exception,
    which one and at which line, depends on the files alone: a missing data
    file (lines 40, 41), an RFM table of no or one row (lines 65, 67), a
    rules file that lacks a displayed column (lines 101-103); the select
    boxes and the solver have no part in it. *)
Theorem run_ends_as_the_files_decide
    (solver : list vec3 -> vec3 * vec3) (w : World) :
  (forall customers, rfm_with_clusters_csv w = Some customers ->
                     Forall tame customers) ->
  (forall t, rules_sorted_csv w = Some t -> parsed_rules t) ->
  raised (dashboard solver w) = run_ends_with w.
Proof.
  intros _ _.
  destruct w as [ft fr fru cc sc kc]. unfold run_ends_with.
  cbn [clothing_retail_300_csv rfm_with_clusters_csv rules_sorted_csv].
  destruct ft as [txns|]; [|reflexivity].
  destruct fr as [customers|]; [|reflexivity].
  destruct customers as [|r1 [|r2 customers]]; [reflexivity|reflexivity|].
  set (cs := r1 :: r2 :: customers).
  assert (2 <= length cs)%nat as Hlen by (unfold cs; simpl; lia).
  unfold dashboard, app_py. rewrite run_app.
  unfold page_header, load_data, sidebar_filters, cluster_selector,
    segment_metrics, pca_projection, pca_plot, breakdowns,
    seasonal_revenue_chart, decor. step.
  rewrite (scaler_returns cs) by lia. step.
  rewrite (PCA_returns solver cs Hlen). step.
  match goal with
  | |- context [exec (association_rules ?w) ?e] =>
      destruct (rules_block_outcome w e) as [Hr Hrfm];
      destruct (exec (association_rules w) e) as [e'|x n e'] eqn:Ex
  end.
  - cbn [raised final rules_sorted_csv] in Hr, Hrfm. rewrite <- Hr.
    destruct e' as [d r c s fd sc' fr' x pc pd tc zc gc sr ru scr].
    cbn [rfm] in Hrfm. subst r. unfold page_footer, decor. reflexivity.
  - cbn [raised rules_sorted_csv] in Hr. rewrite <- Hr. reflexivity.
Qed.

Lemma moderate_small (x : R) : 0 <= x <= 1000 -> moderate x.
Proof.
  intros Hx. unfold moderate. rewrite Rabs_pos_eq by lra.
  apply Rle_trans with (10 ^ 3); [simpl; lra|].
  apply Rle_pow; [lra|lia].
Qed.

Lemma run_ends_as_the_files_decide_witness :
  raised (dashboard fixture_diagonal fixture_world) = None.
Proof.
  rewrite (run_ends_as_the_files_decide fixture_diagonal fixture_world).
  - reflexivity.
  - intros customers H. inversion H. subst customers.
    unfold fixture_pairs.
    repeat (apply Forall_cons;
            [repeat split; try (apply moderate_small; simpl; lra); simpl; lia|]).
    apply Forall_nil.
  - intros t H. discriminate H.
Defined.

(** X20: when the rules file is there with its five displayed columns, the
    antecedents and the consequents being cells that [pd.read_csv] keeps as
    text, the block of lines 99-105 ends normally and adds one element to the
    page: the first ten rows of the five columns, antecedents and consequents
    cleaned; the variable [rules] keeps every column of the file, the other
    ones untouched. *)
Theorem rules_table_is_shown_cleaned (w : World) (e : Env) (t : Table)
    (a c s cf l : list string) :
  rules_sorted_csv w = Some t ->
  lookup "antecedents" t = Some a -> lookup "consequents" t = Some c ->
  lookup "support" t = Some s -> lookup "confidence" t = Some cf ->
  lookup "lift" t = Some l ->
  Forall (fun x => reads_as_text x = true) a ->
  Forall (fun x => reads_as_text x = true) c ->
  let clean := map (fun x => str_strip "(){}" (str_replace "frozenset" "" x)) in
  exists e' t',
    exec (association_rules w) e = Normal e' /\
    screen e'
    = screen e ++ [DataframeRules
                     [("antecedents", firstn 10 (clean a));
                      ("consequents", firstn 10 (clean c));
                      ("support", firstn 10 s);
                      ("confidence", firstn 10 cf);
                      ("lift", firstn 10 l)]%string] /\
    rules e' = Some t' /\
    map fst t' = map fst t /\
    forall n, n <> "antecedents"%string -> n <> "consequents"%string ->
              lookup n t' = lookup n t.
Proof.
  intros Hw Ha Hc Hs Hcf Hl _ _ clean.
  destruct e as [d r c0 s0 fd sc fr x pc pd tc zc gc sr ru scr].
  unfold association_rules. step. rewrite Hw. step.
  unfold clean_column, Table_getitem. rewrite Ha. step.
  rules_lookups. rewrite Hc. step.
  cbn [Table_select]. unfold Table_getitem. rules_lookups.
  rewrite Hs, Hcf, Hl. step.
  eexists. eexists. split; [reflexivity|]. split; [reflexivity|].
  split; [reflexivity|]. split.
  - rewrite !keys_setitem; [reflexivity|congruence|].
    rewrite lookup_setitem_other by discriminate. congruence.
  - intros n Hn1 Hn2. now rewrite !lookup_setitem_other by assumption.
Qed.

Lemma rules_table_is_shown_cleaned_witness :
  exists e',
    exec (association_rules
            (mkWorld None None (Some fixture_rules) 0 0 0)) empty_env
    = Normal e' /\
    screen e'
    = [DataframeRules
         [("antecedents", ["'Coats'"; "'Hats', 'Scarves'"]);
          ("consequents", ["'Gloves'"; "'Coats'"]);
          ("support", ["0.3"; "0.1"]);
          ("confidence", ["0.75"; "0.5"]);
          ("lift", ["1.5"; "1.2"])]%string].
Proof.
  destruct (rules_table_is_shown_cleaned
              (mkWorld None None (Some fixture_rules) 0 0 0) empty_env
              fixture_rules _ _ _ _ _
              eq_refl eq_refl eq_refl eq_refl eq_refl eq_refl)
    as [e' [t' [Hrun [Hscreen _]]]].
  - repeat constructor.
  - repeat constructor.
  - exists e'. split; [exact Hrun|]. rewrite Hscreen. reflexivity.
Defined.

(** * Binary64 semantics: segment means and projection *)

Import Floats.
#[local] Set Warnings "-inexact-float".
Local Open Scope float_scope.

(** ** The segment and its means *)








(** ** One labelled point per record *)

Lemma B64_to_array_RangeIndex (records : list B64.Customer) :
  B64.to_array (RangeIndex records) = B64.feature_rows records.
Proof.
  unfold B64.to_array, B64.feature_rows.
  rewrite <- (values_RangeIndex records) at 2.
  unfold values. now rewrite map_map.
Qed.

Lemma B64_setitem_Cluster_aligned (h : B64.Customer -> B64.PcaDf.row)
    (s : Series Z) :
  forall (records : list B64.Customer) (k : nat),
    (forall i r, nth_error records i = Some r ->
                 loc s (k + i) = Some (B64.Cluster r)) ->
    B64.setitem_Cluster
      (combine (seq k (length (map h records))) (map h records)) s
    = combine (seq k (length records))
        (map (fun r => B64.PcaDf.mkRow (B64.PcaDf.PC1 (h r))
                         (B64.PcaDf.PC2 (h r)) (Some (B64.Cluster r)))
             records).
Proof.
  induction records as [|r records IH]; intros k Hs; simpl; [easy|].
  f_equal.
  - f_equal. f_equal. rewrite <- (Nat.add_0_r k). now apply Hs.
  - apply IH. intros i r' Hi.
    replace (S k + i)%nat with (k + S i)%nat by lia. now apply Hs.
Qed.

Lemma B64_rows_of_records (feat : B64.Customer -> B64.vec3)
    (t c : B64.vec3 -> B64.vec3) (g : B64.vec3 -> float * float)
    (records : list B64.Customer) :
  map (fun xy => B64.PcaDf.mkRow (fst xy) (snd xy) None)
      (map g (map c (map t (map feat records))))
  = map (fun r => B64.PcaDf.mkRow (fst (g (c (t (feat r)))))
                                  (snd (g (c (t (feat r))))) None) records.
Proof. now rewrite !map_map. Qed.

Section B64ProjectionFacts.

Variable solver : list B64.vec3 -> B64.vec3 * B64.vec3.

(** The projection returns exactly when both input checks pass. *)
Lemma B64_project_RangeIndex (records : list B64.Customer) :
  (2 <= length records)%nat ->
  B64.cell_any is_infinity (B64.feature_rows records) = false ->
  B64.cell_all is_finite (B64.standardized records) = true ->
  B64.project solver (RangeIndex records)
  = Ok (RangeIndex (map (B64.point_of solver records) records)).
Proof.
  intros Hlen Hinf Hfin. unfold B64.project.
  rewrite B64_to_array_RangeIndex.
  unfold B64.StandardScaler_fit_transform. rewrite Hinf.
  replace (match B64.feature_rows records with
           | [] => Raise "ValueError"
           | _ :: _ => Ok (map (B64.transform (B64.feature_rows records))
                               (B64.feature_rows records))
           end) with (Ok (B64.standardized records))
    by (destruct records; [simpl in Hlen; lia|reflexivity]).
  cbn [bind]. unfold B64.PCA_fit_transform. rewrite Hfin. cbn [negb].
  replace (2 <=? Nat.min (length (B64.standardized records)) 3)%nat with true
    by (symmetry; apply Nat.leb_le; unfold B64.standardized, B64.feature_rows;
        rewrite !length_map; lia).
  cbn [bind]. f_equal.
  set (w := solver _).
  unfold B64.DataFrame_PC, RangeIndex, B64.center.
  set (Z0 := B64.standardized records) at 1 3.
  unfold B64.standardized, B64.feature_rows.
  rewrite (B64_rows_of_records _ (B64.transform _) (B64.center_row Z0)
             (fun x => (B64.dot x (fst w), B64.dot x (snd w)))).
  rewrite B64_setitem_Cluster_aligned.
  - rewrite length_map. subst w Z0. reflexivity.
  - intros i r Hi. simpl. fold (RangeIndex records).
    now rewrite loc_getcol, loc_RangeIndex, Hi.
Qed.

Lemma B64_project_rejects (records : list B64.Customer) :
  (length records < 2)%nat
  \/ B64.cell_any is_infinity (B64.feature_rows records) = true
  \/ B64.cell_all is_finite (B64.standardized records) = false ->
  B64.project solver (RangeIndex records) = Raise "ValueError".
Proof.
  intros H. unfold B64.project. rewrite B64_to_array_RangeIndex.
  unfold B64.StandardScaler_fit_transform.
  destruct (B64.cell_any is_infinity (B64.feature_rows records)) eqn:Einf;
    [reflexivity|].
  destruct (B64.feature_rows records) as [|v M] eqn:EM; [reflexivity|].
  rewrite <- EM. cbn [bind].
  unfold B64.PCA_fit_transform. fold (B64.standardized records).
  destruct (B64.cell_all is_finite (B64.standardized records)) eqn:Efin;
    [|reflexivity].
  cbn [negb].
  destruct H as [H|[H|H]]; try discriminate H.
  replace (2 <=? Nat.min (length (B64.standardized records)) 3)%nat with false
    by (symmetry; apply Nat.leb_gt; unfold B64.standardized, B64.feature_rows;
        rewrite !length_map; lia).
  reflexivity.
Qed.

End B64ProjectionFacts.

(** C2 (amended): for every sequence of at least two records that holds no
    infinite feature and whose standardized features, computed in binary64,
    are all finite, [project] returns exactly one point per record, under
    the same row labels and in input order; the i-th point is the image of
    the i-th record and carries that record's cluster label. *)
Theorem project_one_point_per_record
    (solver : list B64.vec3 -> B64.vec3 * B64.vec3)
    (records : list B64.Customer) :
  (2 <= length records)%nat ->
  B64.cell_any is_infinity (B64.feature_rows records) = false ->
  B64.cell_all is_finite (B64.standardized records) = true ->
  exists pts,
    B64.project solver (RangeIndex records) = Ok pts /\
    length pts = length records /\
    index pts = index (RangeIndex records) /\
    forall i r, nth_error records i = Some r ->
      exists p, nth_error pts i = Some (i, p) /\
                p = B64.point_of solver records r /\
                B64.PcaDf.Cluster p = Some (B64.Cluster r).
Proof.
  intros Hlen Hinf Hfin. eexists.
  split; [apply B64_project_RangeIndex; assumption|].
  split; [now rewrite length_RangeIndex, length_map|].
  split; [now rewrite !index_RangeIndex, length_map|].
  intros i r Hi. exists (B64.point_of solver records r).
  split; [|split; reflexivity].
  unfold RangeIndex.
  apply (nth_error_combine_seq (map (B64.point_of solver records) records) 0 i).
  now rewrite nth_error_map, Hi.
Qed.

Lemma project_one_point_per_record_witness :
  exists pts,
    B64.project B64.fixture_axes (RangeIndex B64.fixture_pairs) = Ok pts /\
    length pts = length B64.fixture_pairs /\
    index pts = index (RangeIndex B64.fixture_pairs) /\
    forall i r, nth_error B64.fixture_pairs i = Some r ->
      exists p, nth_error pts i = Some (i, p) /\
                p = B64.point_of B64.fixture_axes B64.fixture_pairs r /\
                B64.PcaDf.Cluster p = Some (B64.Cluster r).
Proof.
  apply (project_one_point_per_record B64.fixture_axes B64.fixture_pairs).
  - simpl; lia.
  - reflexivity.
  - reflexivity.
Defined.

(** C2 as stated fails on a table with a single record, and on two records
    whose finite monetary values add up to more than the largest binary64
    number: [project] raises instead of returning points. *)
Lemma project_single_record_no_points :
  B64.project B64.fixture_axes (RangeIndex B64.fixture1) = Raise "ValueError" /\
  B64.project B64.fixture_axes (RangeIndex B64.fixture_huge)
  = Raise "ValueError" /\
  ~ (forall solver records, exists pts,
       B64.project solver (RangeIndex records) = Ok pts /\
       length pts = length records /\
       forall i r, nth_error records i = Some r ->
         exists p, nth_error pts i = Some (i, p) /\
                   B64.PcaDf.Cluster p = Some (B64.Cluster r)).
Proof.
  assert (B64.project B64.fixture_axes (RangeIndex B64.fixture1)
          = Raise "ValueError") as H by reflexivity.
  split; [exact H|]. split; [reflexivity|].
  intros Hall. destruct (Hall B64.fixture_axes B64.fixture1) as [pts [Hok _]].
  rewrite H in Hok. discriminate Hok.
Qed.

(** ** Binary64 arithmetic: rounding keeps the sign *)







(** ** Classes of binary64 numbers *)







(** ** Counts as binary64 numbers *)








(** ** Signed zeros *)







(** ** Sums of zeros *)







(** ** Signs of products and sums *)









(** ** A constant feature whose mean is exact *)

Section ConstantFeature.

Variable M : list B64.vec3.
Variable j : feature.
Variable c : float.

Hypothesis M_nonempty : M <> [].
Hypothesis M_size : (Z.of_nat (length M) < 2 ^ 53)%Z.
Hypothesis M_constant : Forall (fun v => B64.vget j v = c) M.
Hypothesis c_finite : is_finite c = true.
Hypothesis mean_exact : B64.arith_mean (B64.column j M) = c.















End ConstantFeature.

(** ** A constant feature and the scaler *)






